(** * Bike-sharing usage analysis: loader, aggregations and report scripts

    A shallow embedding of the four Python files of the repository

      - [src/data_loader.py]   (class [BikeDataLoader])
      - [src/analysis.py]      (class [BikeAnalyzer])
      - [main.py]              (the modular entry point)
      - [thesis_analysis.py]   (class [BikeDataPipeline], the single-file
                                variant of the same pipeline)

    Tables are pandas data frames: an ordered list of labelled columns.
    Cells are missing ([NaN]/[None]/SQL [NULL]), numeric or text.  A
    numeric cell (int64, float64 or boolean) is represented by the rational
    number it denotes, a canonical [Qc].  The arithmetic on cells is the
    machine's: products are rounded to the nearest float64 or wrap around
    in int64, and the averages of SQLite and pandas are those of their
    float64 engines.  Infinities are not among the cells.
    Python methods are computations in a state-and-exception monad over the
    object they mutate and the outside world (files and standard output). *)

From Stdlib Require Import QArith Qcanon Ascii Lia.
From stdpp Require Import base numbers list strings gmap sorting.

Local Open Scope string_scope.
Local Open Scope list_scope.

(** ** Cell values *)

Inductive value :=
  | VNull
  | VNum (q : Qc)
  | VStr (s : string).

Global Instance value_eq_dec : EqDecision value.
Proof. solve_decision. Defined.

Definition is_null (v : value) : bool :=
  match v with VNull => true | _ => false end.

(** Ordering used for sorting keys: missing first, then numbers by value,
    then text byte-wise.  This is SQLite's [ORDER BY] order on storage
    classes and the order in which pandas sorts group keys. *)
Definition value_le (a b : value) : Prop :=
  match a, b with
  | VNull, _ => True
  | VNum _, VNull => False
  | VNum x, VNum y => (x ≤ y)%Qc
  | VNum _, VStr _ => True
  | VStr _, VNull => False
  | VStr _, VNum _ => False
  | VStr s, VStr t => String.le s t
  end.

Global Instance value_le_dec : RelDecision value_le.
Proof. intros [|x|s] [|y|t]; simpl; apply _. Defined.

(** ** External library behaviour that the repository relies on but does
    not define: how pandas parses one cell into a timestamp, how SQLite
    reads a text cell as a number inside [AVG], and the float64 value that
    SQLite's [AVG] and the [mean] of a pandas group return for the numbers
    they are given (each engine sums and divides in float64 in its own
    way; a result that is not a finite number is a missing cell here). *)
Class Externals := {
  pd_to_datetime : value → option value;
  sqlite_text_to_real : string → Qc;
  sqlite_avg : list Qc → value;
  pandas_mean : list Qc → value;
}.

(** ** Data frames *)

Abbreviation Series := (list value) (only parsing).
Abbreviation DataFrame := (list (string * list value)) (only parsing).

Definition columns (df : DataFrame) : list string := df.*1.

Definition nrows (df : DataFrame) : nat :=
  match df with
  | [] => 0
  | (_, c) :: _ => length c
  end.

(** Every column has the same number of cells (what [read_csv] returns). *)
Definition rectangular (df : DataFrame) : Prop :=
  Forall (λ c, length c.2 = nrows df) df.

(** ** Python exceptions *)

Inductive exn :=
  | FileNotFoundError (msg : string)
  | FileExistsError
  | PermissionError
  | IsADirectoryError
  | NotADirectoryError
  | UnicodeDecodeError
  | KeyError (label : string)
  | ValueError
  | TypeError
  | AttributeError
  | DatabaseError (msg : string)
  | SyntaxError.

Global Instance exn_eq_dec : EqDecision exn.
Proof. solve_decision. Defined.

(** ** State-and-exception monad.  The state survives a raised exception,
    as the effects of the statements executed before a [raise] do. *)

Definition M (S A : Type) : Type := S → (exn + A) * S.

Global Instance M_ret {S} : MRet (M S) := λ A a s, (inr a, s).
Global Instance M_bind {S} : MBind (M S) := λ A B f m s,
  match m s with
  | (inl e, s') => (inl e, s')
  | (inr a, s') => f a s'
  end.

Definition raise {S A} (e : exn) : M S A := λ s, (inl e, s).
Definition get {S} : M S S := λ s, (inr s, s).
Definition gets {S A} (f : S → A) : M S A := λ s, (inr (f s), s).
Definition modify {S} (f : S → S) : M S unit := λ s, (inr tt, f s).
Definition lift_result {S A} (r : exn + A) : M S A := λ s, (r, s).

(** Run a computation on one component of a pair state. *)
Definition on_snd {S W A} (m : M W A) : M (S * W) A := λ s,
  let '(r, w) := m s.2 in (r, (s.1, w)).

Notation "m1 ;; m2" := (m1 ≫= (λ _, m2))
  (at level 100, m2 at level 200, right associativity) : stdpp_scope.

(** ** pandas operations on frames *)

(** [df[label]]: a missing label is a [KeyError]; a label carried by several
    columns selects a frame, not a series, on which the element-wise uses
    made of it below raise [ValueError]. *)
Definition getitem (df : DataFrame) (label : string) : exn + Series :=
  match filter (λ c, c.1 = label) df with
  | [] => inl (KeyError label)
  | [c] => inr c.2
  | _ => inl ValueError
  end.

(** [df[label] = s]: overwrite the column in place when the label exists,
    append it as the last column otherwise. *)
Definition setitem (label : string) (s : Series) (df : DataFrame) : DataFrame :=
  if bool_decide (label ∈ columns df)
  then (λ c, if bool_decide (c.1 = label) then (label, s) else c) <$> df
  else df ++ [(label, s)].

(** [df.rename(columns=m)]: a label found among the keys of the dict is
    replaced by its value, every other label is kept (exact, case-sensitive
    key comparison). *)
Definition rename_label (m : gmap string string) (label : string) : string :=
  default label (m !! label).

Definition rename (m : gmap string string) (df : DataFrame) : DataFrame :=
  prod_map (rename_label m) id <$> df.

(** Python's [s * k] on text repeats it. *)
Fixpoint str_repeat (s : string) (k : nat) : string :=
  match k with
  | O => ""
  | S k => s +:+ str_repeat s k
  end.

(** *** Machine numbers

    A float64 is a rational [m * 2^e] with [|m| < 2^53] and
    [-1074 <= e <= 971], or an infinity or a NaN. *)

(** [2^e] for an exponent of either sign. *)
Definition pow2 (e : Z) : Qc :=
  if (0 <=? e)%Z then Qc_of_Z (2 ^ e) else (/ Qc_of_Z (2 ^ (- e)))%Qc.


(** The integer part of the binary logarithm of [n/d], for [n, d > 0]. *)
Definition floor_log2 (n d : Z) : Z :=
  let e := (Z.log2 n - Z.log2 d)%Z in
  if (if (0 <=? e)%Z then (n <? d * 2 ^ e)%Z else (n * 2 ^ (- e) <? d)%Z)
  then (e - 1)%Z else e.

(** [n/d] rounded to the nearest integer, a tie going to the even one. *)
Definition round_half_even (n d : Z) : Z :=
  let f := (n / d)%Z in
  let r := (n mod d)%Z in
  if (2 * r <? d)%Z then f
  else if (d <? 2 * r)%Z then (f + 1)%Z
  else if Z.even f then f else (f + 1)%Z.

(** IEEE 754 rounding of the fraction [n/d] to binary64, to nearest with
    ties to even: the unit in the last place is [2^p] with
    [p = max (floor_log2 |n/d|) (-1022) - 52] (subnormal numbers share the
    exponent -1022); [None] when the result is an infinity. *)
Definition float64_round (n : Z) (d : positive) : option Qc :=
  if (n =? 0)%Z then Some (Qc_of_Z 0) else
  let a := Z.abs n in
  let p := (Z.max (floor_log2 a (Z.pos d)) (-1022) - 52)%Z in
  let m := if (0 <=? p)%Z then round_half_even a (Z.pos d * 2 ^ p)
           else round_half_even (a * 2 ^ (- p)) (Z.pos d) in
  if (0 <=? p)%Z && (2 ^ 1024 <=? m * 2 ^ p)%Z then None
  else Some (Qc_of_Z (Z.sgn n * m) * pow2 p)%Qc.

(** Two's complement wrap-around of int64 arithmetic. *)
Definition wrap_int64 (z : Z) : Z := ((z + 2 ^ 63) mod 2 ^ 64 - 2 ^ 63)%Z.

Definition is_str (v : value) : bool :=
  match v with VStr _ => true | _ => false end.

(** A whole number in the range of int64. *)
Definition is_int64 (v : value) : bool :=
  match v with
  | VNum q => (Qden q =? 1)%positive && (- 2 ^ 63 <=? Qnum q)%Z && (Qnum q <? 2 ^ 63)%Z
  | _ => false
  end.

(** The dtype of a column as [read_csv] infers it: [object] when it holds
    text, [int64] when every cell is a whole number, [float64] otherwise
    (a column with a missing or a fractional cell).  A float64 column all
    of whose cells are whole numbers is not told apart from an int64 one;
    the two agree on every product below [2^53] in magnitude. *)
Inductive dtype := Int64 | Float64 | Object.

Definition series_dtype (s : Series) : dtype :=
  if existsb is_str s then Object
  else if forallb is_int64 s then Int64
  else Float64.

(** The float64 product of the number [q] by the integer [k]; an
    overflowing product, an infinity in numpy, is left missing. *)
Definition float64_mul (q : Qc) (k : Z) : value :=
  from_option VNum VNull (float64_round (Qnum q * k) (Qden q)).

(** [x * k] for a cell [x] of a column of dtype [dt] and an integer literal
    [k].  In an [object] column the cells are Python objects: text is
    repeated, a whole number is an unbounded [int], any other number a
    [float]. *)
Definition py_mul (dt : dtype) (x : value) (k : Z) : value :=
  match x with
  | VNull => VNull
  | VStr s => VStr (str_repeat s (Z.to_nat k))
  | VNum q =>
      match dt with
      | Int64 => VNum (Qc_of_Z (wrap_int64 (Qnum q * k)))
      | Float64 => float64_mul q k
      | Object =>
          if (Qden q =? 1)%positive then VNum (Qc_of_Z (Qnum q * k))
          else float64_mul q k
      end
  end.

(** [series * k], element-wise in the dtype of the series. *)
Definition series_mul (s : Series) (k : Z) : Series :=
  (λ x, py_mul (series_dtype s) x k) <$> s.

(** [x == 1] on a cell: true for the number one only. *)
Definition py_eq_one (x : value) : bool :=
  match x with
  | VNum q => bool_decide (q = Qc_of_Z 1)
  | _ => false
  end.

(** [pd.to_datetime(series)]: every cell must parse. *)
Definition to_datetime `{Externals} (s : Series) : exn + Series :=
  match mapM pd_to_datetime s with
  | Some s' => inr s'
  | None => inl ValueError
  end.

(** ** The outside world: a file tree and the lines printed so far *)

Inductive ChartKind := LinePlot | StackedBarPlot.

Record Chart := {
  chart_kind : ChartKind;
  chart_title : string;
  chart_data : DataFrame;
}.

Inductive File :=
  | Dir
  | Locked                      (* exists, but cannot be opened *)
  | Csv (table : DataFrame)
  | Png (chart : Chart).

(** What [print] was given: a line of text or a frame. *)
Inductive printed :=
  | Line (s : string)
  | Table (df : DataFrame).

Record World := {
  files : gmap string File;
  stdout : list printed;
}.

Definition is_png (f : File) : bool :=
  match f with Png _ => true | _ => false end.

(** The image files present in a world. *)
Definition images (w : World) : gmap string File :=
  filter (λ kv, is_png kv.2 = true) (files w).

(** [print]; a line break that the source puts in front of a message is
    not recorded. *)
Definition write_stdout (p : printed) : M World unit :=
  modify (λ w, {| files := files w; stdout := stdout w ++ [p] |}).

Definition print (line : string) : M World unit := write_stdout (Line line).

Definition os_path_exists (path : string) : M World bool :=
  gets (λ w, bool_decide (is_Some (files w !! path))).

Definition os_makedirs (path : string) : M World unit :=
  w ← get;
  match files w !! path with
  | Some _ => raise FileExistsError
  | None => modify (λ w, {| files := <[path := Dir]> (files w); stdout := stdout w |})
  end.

(** [pd.read_csv(path)]; a CSV file is represented by the table that pandas
    parses from it. *)
Definition read_csv (path : string) : M World DataFrame :=
  w ← get;
  match files w !! path with
  | None => raise (FileNotFoundError path)
  | Some Dir => raise IsADirectoryError
  | Some Locked => raise PermissionError
  | Some (Png _) => raise UnicodeDecodeError
  | Some (Csv table) => mret table
  end.

Fixpoint drop_to_slash (s : string) : string :=
  match s with
  | "" => ""
  | String a s' => if Ascii.eqb a "/"%char then s' else drop_to_slash s'
  end.

(** [os.path.dirname]: what precedes the last slash. *)
Definition dirname (path : string) : string :=
  String.rev (drop_to_slash (String.rev path)).

Definition is_dir (f : option File) : bool :=
  match f with Some Dir => true | _ => false end.

(** [plt.savefig(path)] for a path whose name ends in [.png], as every
    path that the repository passes does (to a name without an extension
    matplotlib appends one, which is not rendered here): the enclosing
    directory must exist and the destination must be writable. *)
Definition savefig (path : string) (c : Chart) : M World unit :=
  w ← get;
  if negb (bool_decide (dirname path = "")) && negb (is_dir (files w !! dirname path))
  then raise (if bool_decide (is_Some (files w !! dirname path))
              then NotADirectoryError else FileNotFoundError path)
  else match files w !! path with
       | Some Dir => raise IsADirectoryError
       | Some Locked => raise PermissionError
       | _ => modify (λ w, {| files := <[path := Png c]> (files w);
                               stdout := stdout w |})
       end.

(** * [src/data_loader.py] *)

Module BikeDataLoader.

Record t := {
  hourly_path : string;
  daily_path : string;
  df : option DataFrame;
}.

Definition init (hourly_path daily_path : string) : t :=
  {| hourly_path := hourly_path; daily_path := daily_path; df := None |}.

Definition set_df (d : DataFrame) : M (t * World) unit :=
  modify (λ s, ({| hourly_path := hourly_path s.1;
                   daily_path := daily_path s.1;
                   df := Some d |}, s.2)).

Definition self_df : M (t * World) DataFrame :=
  s ← get;
  match df s.1 with
  | Some d => mret d
  | None => raise TypeError
  end.

Definition rename_map : gmap string string :=
  list_to_map [
    ("dteday", "date"); ("yr", "year"); ("mnth", "month"); ("hr", "hour");
    ("weathersit", "weather_code"); ("cnt", "total_rentals");
    ("hum", "humidity_norm"); ("atemp", "feel_temp_norm");
    ("workingday", "is_working_day")
  ].

Definition day_label (x : value) : value :=
  if py_eq_one x then VStr "Working Day" else VStr "Weekend/Holiday".

Definition load_and_clean `{Externals} : M (t * World) DataFrame :=
  self ← gets fst;
  found ← on_snd (os_path_exists (hourly_path self));
  if negb found then
    raise (FileNotFoundError ("Data file not found at: " +:+ hourly_path self))
  else
    on_snd (print ("Loading data from " +:+ hourly_path self +:+ "..."));;
    d ← on_snd (read_csv (hourly_path self));
    set_df d;;
    (* Semantic renaming *)
    d ← self_df;
    set_df (rename rename_map d);;
    (* Type conversion *)
    d ← self_df;
    c ← lift_result (getitem d "date");
    c ← lift_result (to_datetime c);
    set_df (setitem "date" c d);;
    (* Feature engineering *)
    d ← self_df;
    c ← lift_result (getitem d "temp");
    set_df (setitem "temp_c" (series_mul c 41) d);;
    d ← self_df;
    c ← lift_result (getitem d "humidity_norm");
    set_df (setitem "humidity_real" (series_mul c 100) d);;
    d ← self_df;
    c ← lift_result (getitem d "windspeed");
    set_df (setitem "wind_speed_real" (series_mul c 67) d);;
    (* Readable labels *)
    d ← self_df;
    c ← lift_result (getitem d "is_working_day");
    set_df (setitem "day_type" (day_label <$> c) d);;
    self_df.

End BikeDataLoader.

(** * Aggregation primitives of the two libraries *)

Definition as_num (v : value) : option Qc :=
  match v with VNum q => Some q | _ => None end.



(** The cells of [vals] on the rows where [keys] holds [k]. *)
Definition select {K} `{EqDecision K} (k : K) (keys : list K) (vals : Series) : Series :=
  (filter (λ kv, kv.1 = k) (zip keys vals)).*2.

(** ** pandas: [df.groupby(key)[cols].mean()] *)

(** [Series.mean()] skips missing cells; text cannot be averaged. *)
Definition pd_mean `{Externals} (xs : Series) : exn + value :=
  if existsb is_str xs then inl TypeError
  else inr (pandas_mean (omap as_num xs)).

Fixpoint collect {A B} (f : A → exn + B) (l : list A) : exn + list B :=
  match l with
  | [] => inr []
  | x :: l =>
      match f x with
      | inl e => inl e
      | inr y =>
          match collect f l with
          | inl e => inl e
          | inr ys => inr (y :: ys)
          end
      end
  end.

(** Group keys: the distinct non-missing values of the key column
    ([dropna=True]), in ascending order ([sort=True]). *)
Definition group_keys (keys : Series) : list value :=
  merge_sort value_le (remove_dups (filter (λ k, is_null k = false) keys)).

(** One entry per group: the key and, for each requested column in turn,
    the mean of that column over the group. *)
Definition groupby_mean `{Externals} (df : DataFrame) (key : string)
    (cols : list string) : exn + list (value * list value) :=
  match getitem df key with
  | inl e => inl e
  | inr keys =>
      match collect (getitem df) cols with
      | inl e => inl e
      | inr series =>
          collect (λ k,
            match collect (λ s, pd_mean (select k keys s)) series with
            | inl e => inl e
            | inr ms => inr (k, ms)
            end) (group_keys keys)
      end
  end.

(** The entry of group [k] when two columns are averaged without error. *)
Definition group_means `{Externals} (keys s1 s2 : Series) (k : value)
    : value * list value :=
  (k, [pandas_mean (omap as_num (select k keys s1));
       pandas_mean (omap as_num (select k keys s2))]).

(** The resulting frame: the index (named after the key) and the columns. *)
Definition grouped_frame (key : string) (cols : list string)
    (g : list (value * list value)) : DataFrame :=
  (key, g.*1) :: imap (λ i c, (c, (λ r, default VNull (r.2 !! i)) <$> g)) cols.

(** ** SQLite: the in-memory connection *)

Definition ascii_lower (a : ascii) : ascii :=
  let n := N_of_ascii a in
  if ((65 <=? n) && (n <=? 90))%N then ascii_of_N (n + 32) else a.

Fixpoint sql_ident (s : string) : string :=
  match s with
  | "" => ""
  | String a s => String (ascii_lower a) (sql_ident s)
  end.

(** [df.to_sql(name, conn, index=False, if_exists='replace')]: the
    exception raised, if any, and the connection left behind.  SQLite
    compares column names without regard to ASCII case and refuses a table
    with two equal ones; by then pandas has dropped the table that was
    there under that name. *)
Definition to_sql (name : string) (df : DataFrame) (conn : gmap string DataFrame)
    : option exn * gmap string DataFrame :=
  if bool_decide (NoDup (sql_ident <$> columns df))
  then (None, <[name := df]> conn)
  else (Some (DatabaseError "duplicate column name"), delete name conn).

(** Re-raise what a library call reported. *)
Definition raise_if {S} (e : option exn) : M S unit :=
  match e with
  | Some e => raise e
  | None => mret tt
  end.

Definition sql_table (conn : gmap string DataFrame) (name : string) : exn + DataFrame :=
  match conn !! name with
  | Some t => inr t
  | None => inl (DatabaseError ("no such table: " +:+ name))
  end.

Definition sql_column (t : DataFrame) (name : string) : exn + Series :=
  match filter (λ c, sql_ident c.1 = sql_ident name) t with
  | c :: _ => inr c.2
  | [] => inl (DatabaseError ("no such column: " +:+ name))
  end.

(** [AVG(x)]: [NULL]s are skipped, text is read as a number. *)
Definition sql_numeric `{Externals} (v : value) : option Qc :=
  match v with
  | VNull => None
  | VNum q => Some q
  | VStr s => Some (sqlite_text_to_real s)
  end.

Definition sql_avg `{Externals} (xs : Series) : value :=
  sqlite_avg (omap sql_numeric xs).

(** Group keys are pairs (hour, day_type); [ORDER BY day_type, hour]
    compares the second component first and the first one on a tie. *)
Definition order_by_snd_fst (x y : value * value) : Prop :=
  value_le x.2 y.2 ∧ (value_le y.2 x.2 → value_le x.1 y.1).

Global Instance order_by_snd_fst_dec : RelDecision order_by_snd_fst.
Proof. intros x y. unfold order_by_snd_fst. apply _. Defined.

Record TemporalRow := {
  tr_hour : value;
  tr_day_type : value;
  tr_avg : value;
}.

Definition tr_key (r : TemporalRow) : value * value := (tr_hour r, tr_day_type r).

Definition temporal_order (r1 r2 : TemporalRow) : Prop :=
  order_by_snd_fst (tr_key r1) (tr_key r2).

Global Instance temporal_order_dec : RelDecision temporal_order.
Proof. intros x y. unfold temporal_order. apply _. Defined.

(** [SELECT hour, day_type, AVG(total_rentals) FROM rentals
     GROUP BY hour, day_type ORDER BY day_type, hour]
    over the three columns of the table. *)
Definition temporal_aggregate `{Externals}
    (hour day_type total_rentals : Series) : list TemporalRow :=
  let keys := zip hour day_type in
  merge_sort temporal_order
    ((λ k, {| tr_hour := k.1; tr_day_type := k.2;
              tr_avg := sql_avg (select k keys total_rentals) |})
       <$> remove_dups keys).

Definition temporal_query `{Externals} (conn : gmap string DataFrame)
    : exn + list TemporalRow :=
  match sql_table conn "rentals" with
  | inl e => inl e
  | inr t =>
      match sql_column t "hour", sql_column t "day_type",
            sql_column t "total_rentals" with
      | inr h, inr d, inr r => inr (temporal_aggregate h d r)
      | inl e, _, _ => inl e
      | _, inl e, _ => inl e
      | _, _, inl e => inl e
      end
  end.

(** The frame [pd.read_sql_query] hands back; [alias] names the average. *)
Definition temporal_frame (alias : string) (rows : list TemporalRow) : DataFrame :=
  [("hour", tr_hour <$> rows); ("day_type", tr_day_type <$> rows);
   (alias, tr_avg <$> rows)].

(** ** Call sites of the plotting API *)

Inductive pyexpr :=
  | EStr (s : string)
  | EBool (b : bool)
  | ETuple (l : list Z).

(** A keyword argument as written, [name=expr]; the expression is [None]
    when nothing follows the equals sign. *)
Definition kwarg : Type := string * option pyexpr.

Definition call_wellformed (kw : list kwarg) : bool :=
  forallb (λ a, bool_decide (is_Some a.2)) kw.

(** Run a method on an object [o], threading the world. *)
Definition with_obj {S A} (o : S) (m : M (S * World) A) : M World (A * S) := λ w,
  match m (o, w) with
  | (inl e, s) => (inl e, s.2)
  | (inr a, s) => (inr (a, s.1), s.2)
  end.

(** * [src/analysis.py] *)

Module BikeAnalyzer.

Record t := {
  df : DataFrame;
  conn : gmap string DataFrame;
}.

(** [_setup_db], called by the constructor on a fresh connection. *)
Definition setup_db (dataframe : DataFrame) (conn : gmap string DataFrame) : exn + t :=
  match to_sql "rentals" dataframe conn with
  | (Some e, _) => inl e
  | (None, conn') => inr {| df := dataframe; conn := conn' |}
  end.

Definition init (dataframe : DataFrame) : exn + t := setup_db dataframe ∅.

(** [output_path] defaults to ['output/temporal_analysis.png'], which is
    what [main] passes.  The drawing itself is not rendered: a frame that
    seaborn or matplotlib refuses to draw (no row at all, or a result
    column that SQLite names after the table's column in another case) is
    not told apart from one that it draws. *)
Definition plot_temporal_trends `{Externals} (output_path : string)
    : M (t * World) unit :=
  self ← gets fst;
  rows ← lift_result (temporal_query (conn self));
  let data := temporal_frame "avg_rentals" rows in
  on_snd (savefig output_path
    {| chart_kind := LinePlot;
       chart_title := "Hourly Bike Demand: Commuter vs Leisure Patterns";
       chart_data := data |});;
  on_snd (print ("Saved temporal analysis to " +:+ output_path)).

Definition weather_aggregate `{Externals} (d : DataFrame)
    : exn + list (value * list value) :=
  groupby_mean d "weather_code" ["casual"; "registered"].

Definition plot_kwargs : list kwarg :=
  [("kind", Some (EStr "bar")); ("stacked", Some (EBool true));
   ("figsize", Some (ETuple [10; 6]%Z))].

(** [output_path] defaults to ['output/user_analysis.png']. *)
Definition plot_user_segmentation `{Externals} (output_path : string)
    : M (t * World) unit :=
  if negb (call_wellformed plot_kwargs) then raise SyntaxError else
  self ← gets fst;
  weather_avg ← lift_result (weather_aggregate (df self));
  on_snd (savefig output_path
    {| chart_kind := StackedBarPlot;
       chart_title := "User Resilience to Weather Conditions";
       chart_data := grouped_frame "weather_code" ["casual"; "registered"] weather_avg |});;
  on_snd (print ("Saved user analysis to " +:+ output_path)).

End BikeAnalyzer.

(** * [main.py] *)

Definition main `{Externals} : M World unit :=
  found ← os_path_exists "output";
  (if negb found then os_makedirs "output" else mret tt);;
  let loader := BikeDataLoader.init "data/hour.csv" "data/day.csv" in
  '(clean_df, _) ← with_obj loader BikeDataLoader.load_and_clean;
  analyzer ← lift_result (BikeAnalyzer.init clean_df);
  print "--- Starting Analysis ---";;
  '(_, analyzer) ← with_obj analyzer
      (BikeAnalyzer.plot_temporal_trends "output/temporal_analysis.png");
  '(_, analyzer) ← with_obj analyzer
      (BikeAnalyzer.plot_user_segmentation "output/user_analysis.png");
  print "--- Analysis Complete. Check 'output' folder. ---".

(** * [thesis_analysis.py]

    Python compiles a module as a whole before it runs any of it.  The
    methods below are embedded one by one, each as the interpreter runs it
    when its own text is well formed; the script at the end of the file
    carries the check for the whole module. *)

Module BikeDataPipeline.

Record t := {
  hourly_path : string;
  daily_path : string;
  trips_path : option string;
  conn : gmap string DataFrame;
  df : option DataFrame;
}.

Definition init (hourly_path daily_path : string) (trips_path : option string) : t :=
  {| hourly_path := hourly_path; daily_path := daily_path;
     trips_path := trips_path; conn := ∅; df := None |}.

Definition set_df (d : DataFrame) : M (t * World) unit :=
  modify (λ s, ({| hourly_path := hourly_path s.1; daily_path := daily_path s.1;
                   trips_path := trips_path s.1; conn := conn s.1;
                   df := Some d |}, s.2)).

Definition set_conn (c : gmap string DataFrame) : M (t * World) unit :=
  modify (λ s, ({| hourly_path := hourly_path s.1; daily_path := daily_path s.1;
                   trips_path := trips_path s.1; conn := c;
                   df := df s.1 |}, s.2)).

(** [self.df.<method>] on an unset [self.df] is an attribute error on
    [None]; indexing it is a type error. *)
Definition self_df (e : exn) : M (t * World) DataFrame :=
  s ← get;
  match df s.1 with
  | Some d => mret d
  | None => raise e
  end.

Definition column_map : gmap string string :=
  list_to_map [
    ("dteday", "date"); ("yr", "year"); ("mnth", "month"); ("hr", "hour");
    ("weathersit", "weather_code"); ("cnt", "total_rentals");
    ("hum", "humidity_norm"); ("atemp", "feel_temp_norm")
  ].

Definition day_label (x : value) : value :=
  if py_eq_one x then VStr "Working Day" else VStr "Weekend/Holiday".

Definition process_data : M (t * World) unit :=
  self ← gets fst;
  found ← on_snd (os_path_exists (hourly_path self));
  if negb found then
    on_snd (print ("[!] Critical: " +:+ hourly_path self +:+ " not found."))
  else
    on_snd (print ("Loading data from " +:+ hourly_path self +:+ "..."));;
    d ← on_snd (read_csv (hourly_path self));
    set_df d;;
    (* 1. Semantic renaming *)
    d ← self_df AttributeError;
    set_df (rename column_map d);;
    (* 2. Denormalization *)
    d ← self_df TypeError;
    c ← lift_result (getitem d "temp");
    set_df (setitem "temp_c" (series_mul c 41) d);;
    d ← self_df TypeError;
    c ← lift_result (getitem d "humidity_norm");
    set_df (setitem "humidity_real" (series_mul c 100) d);;
    d ← self_df TypeError;
    c ← lift_result (getitem d "windspeed");
    set_df (setitem "wind_speed_real" (series_mul c 67) d);;
    (* 3. Categorical labelling *)
    d ← self_df TypeError;
    c ← lift_result (getitem d "workingday");
    set_df (setitem "day_type" (day_label <$> c) d);;
    (* Load into SQLite *)
    d ← self_df AttributeError;
    self ← gets fst;
    let r := to_sql "rentals" d (conn self) in
    set_conn r.2;;
    raise_if r.1;;
    on_snd (print "Data successfully loaded into SQL environment.").

Definition run_temporal_analysis `{Externals} : M (t * World) unit :=
  on_snd (print "--- Performing Temporal SQL Analysis ---");;
  self ← gets fst;
  results ← lift_result (temporal_query (conn self));
  on_snd (savefig "viz_temporal_patterns.png"
    {| chart_kind := LinePlot;
       chart_title := "Hourly Usage Profiles: Commute vs. Leisure";
       chart_data := temporal_frame "average_volume" results |});;
  on_snd (print ">> Saved chart: viz_temporal_patterns.png").

Definition weather_aggregate `{Externals} (d : DataFrame)
    : exn + list (value * list value) :=
  groupby_mean d "weather_code" ["casual"; "registered"].

(** Line 102: [weather_avg.plot(kind='bar', stacked=True, color=)]. *)
Definition plot_kwargs : list kwarg :=
  [("kind", Some (EStr "bar")); ("stacked", Some (EBool true));
   ("color", None)].

Definition run_weather_impact_study `{Externals} : M (t * World) unit :=
  if negb (call_wellformed plot_kwargs) then raise SyntaxError else
  on_snd (print "--- Performing Weather Impact Study ---");;
  d ← self_df AttributeError;
  weather_avg ← lift_result (weather_aggregate d);
  on_snd (savefig "viz_weather_impact.png"
    {| chart_kind := StackedBarPlot;
       chart_title := "Impact of Weather Severity on User Segments";
       chart_data := grouped_frame "weather_code" ["casual"; "registered"] weather_avg |});;
  on_snd (print ">> Saved chart: viz_weather_impact.png").

(** [SELECT "Start Station", COUNT( * ) as departures FROM raw_trips
     GROUP BY "Start Station" ORDER BY departures DESC LIMIT 5]
    over the station column: one entry per distinct station with its
    number of rows, most frequent first, at most five.  Among stations
    with the same number of rows SQLite promises no order; the order taken
    here is one of those it may return. *)
Definition by_departures_desc (x y : value * nat) : Prop := (y.2 ≤ x.2)%nat.

Global Instance by_departures_desc_dec : RelDecision by_departures_desc.
Proof. intros x y. unfold by_departures_desc. apply _. Defined.

Definition departures (stations : Series) : list (value * nat) :=
  (λ k, (k, length (filter (λ x, x = k) stations))) <$> remove_dups stations.

Definition top_start_stations (stations : Series) : list (value * nat) :=
  take 5 (merge_sort by_departures_desc (departures stations)).

(** The query needs the table to have the quoted column; what SQLite makes
    of a quoted name that matches no column depends on how it was built,
    and is rendered here as the standard "no such column" error. *)
Definition top_stations_query (conn : gmap string DataFrame)
    : exn + list (value * nat) :=
  match sql_table conn "raw_trips" with
  | inl e => inl e
  | inr t =>
      match sql_column t "Start Station" with
      | inl e => inl e
      | inr stations => inr (top_start_stations stations)
      end
  end.

(** The frame of the result; its first column carries the name of the
    table's column, which is the quoted one up to case. *)
Definition stations_frame (rows : list (value * nat)) : DataFrame :=
  [("Start Station", rows.*1);
   ("departures", (λ r, VNum (Qc_of_Z (Z.of_nat r.2))) <$> rows)].

Definition skip_message : string :=
  "[Info] 'trips.csv' not found. Skipping spatial module.".

(** A path is truthy when it is neither [None] nor the empty string. *)
Definition truthy (p : option string) : bool :=
  match p with
  | None => false
  | Some s => negb (bool_decide (s = ""))
  end.

Definition run_spatial_analysis : M (t * World) unit :=
  on_snd (print "--- Checking for Spatial Data ---");;
  self ← gets fst;
  found ← (if truthy (trips_path self)
           then on_snd (os_path_exists (default "" (trips_path self)))
           else mret false);
  if (found : bool) then
    on_snd (print "Loading raw trip logs for spatial analysis...");;
    trips ← on_snd (read_csv (default "" (trips_path self)));
    let r := to_sql "raw_trips" trips (conn self) in
    set_conn r.2;;
    raise_if r.1;;
    self ← gets fst;
    rows ← lift_result (top_stations_query (conn self));
    on_snd (write_stdout (Table (stations_frame rows)))
  else
    on_snd (print skip_message);;
    on_snd (print "Note: The standard UCI dataset is aggregated and lacks station coordinates.").

(** The whole file parses only if every call in it does. *)
Definition module_wellformed : bool := call_wellformed plot_kwargs.

(** The [__main__] block. *)
Definition script `{Externals} : M World unit :=
  if negb module_wellformed then raise SyntaxError else
  let pipeline := init "hour.csv" "day.csv" (Some "trips.csv") in
  '(_, pipeline) ← with_obj pipeline process_data;
  '(_, pipeline) ← with_obj pipeline run_temporal_analysis;
  '(_, pipeline) ← with_obj pipeline run_weather_impact_study;
  '(_, pipeline) ← with_obj pipeline run_spatial_analysis;
  print "Analysis Cycle Complete.".

End BikeDataPipeline.

(** * Sample data used to exercise the statements below *)

Module Sample.

Definition num (z : Z) : value := VNum (Qc_of_Z z).
Definition half : value := VNum (Q2Qc (1 # 2)).


(** A stand-in for the float64 average of an engine: the exact mean
    rounded once to the nearest float64. *)
Definition rounded_mean (l : list Qc) : value :=
  match l with
  | [] => VNull
  | _ =>
      let m := (foldr Qcplus 0 l / Qc_of_Z (Z.of_nat (length l)))%Qc in
      match float64_round (Qnum m) (Qden m) with
      | Some r =>
          if (Z.pos (Qden r) =? 2 ^ Z.log2 (Z.pos (Qden r)))%Z then VNum r else VNull
      | None => VNull
      end
  end.

(** A stand-in for the library functions: text and missing cells are
    accepted as dates, text reads as zero, averages are rounded means. *)
Definition externals : Externals := {|
  pd_to_datetime v :=
    match v with
    | VNum _ => None
    | _ => Some v
    end;
  sqlite_text_to_real _ := Qc_of_Z 0;
  sqlite_avg := rounded_mean;
  pandas_mean := rounded_mean;
|}.

Definition hour_csv : DataFrame :=
  [("dteday", [VStr "2011-01-01"; VStr "2011-01-01"; VStr "2011-01-02"; VStr "2011-01-02"]);
   ("hr", [num 0; num 1; num 0; VNull]);
   ("workingday", [num 0; num 1; num 1; VNull]);
   ("weathersit", [num 1; num 2; num 1; VNull]);
   ("temp", [half; num 1; VNull; num 0]);
   ("hum", [half; half; num 0; num 1]);
   ("windspeed", [num 0; half; num 1; VNull]);
   ("casual", [num 5; num 7; num 15; num 100]);
   ("registered", [num 10; num 3; num 20; num 200]);
   ("cnt", [num 15; num 10; num 35; num 300])].


(** A cleaned table with one weather code and one with a missing code
    and a missing hour. *)
Definition weather_frame : DataFrame :=
  [("weather_code", [num 1; num 1]);
   ("casual", [num 5; num 15]);
   ("registered", [num 10; num 20])].


Definition trips_csv : DataFrame :=
  [("Start Station", [VStr "A"; VStr "B"; VStr "A"; VStr "C"; VStr "B"; VStr "A"]);
   ("Duration", [num 5; num 6; num 7; num 8; num 9; num 10])].

(** Worlds: the layout [main.py] expects, the layout the thesis script
    expects, an empty directory, and one whose trip log cannot be opened. *)
Definition world_main : World :=
  {| files := {[ "data/hour.csv" := Csv hour_csv ]}; stdout := [] |}.

Definition world_thesis : World :=
  {| files := <["hour.csv" := Csv hour_csv]> {[ "trips.csv" := Csv trips_csv ]};
     stdout := [] |}.


Definition world_empty : World := {| files := ∅; stdout := [] |}.

(** A trip log with two column names that differ in case only. *)
Definition clash_csv : DataFrame :=
  [("Start Station", [VStr "A"; VStr "B"]);
   ("start station", [VStr "a"; VStr "b"])].

Definition world_clash : World :=
  {| files := {[ "trips.csv" := Csv clash_csv ]}; stdout := [] |}.

Definition world_locked_trips : World :=
  {| files := {[ "trips.csv" := Locked ]}; stdout := [] |}.

Definition loader : BikeDataLoader.t :=
  BikeDataLoader.init "data/hour.csv" "data/day.csv".

Definition pipeline : BikeDataPipeline.t :=
  BikeDataPipeline.init "hour.csv" "day.csv" (Some "trips.csv").

End Sample.

(** * Properties *)

(** ** The orders used for sorting *)

Global Instance value_le_po : PartialOrder value_le.
Proof.
  split; [split|].
  - intros [|x|s]; simpl; done.
  - intros [|x|s] [|y|t] [|z|u]; simpl; try done; apply transitivity.
  - intros [|x|s] [|y|t]; simpl; try done.
    + intros ??. f_equal. by apply (anti_symm Qcle).
    + intros ??. f_equal. by apply (anti_symm String.le).
Qed.

Global Instance value_le_total : Total value_le.
Proof.
  intros [|x|s] [|y|t]; simpl; auto.
  - apply (total Qcle).
  - apply (total String.le).
Qed.

Global Instance order_by_snd_fst_trans : Transitive order_by_snd_fst.
Proof.
  intros [a1 b1] [a2 b2] [a3 b3]; unfold order_by_snd_fst; simpl.
  intros [H12 K12] [H23 K23]. split; [by etrans|].
  intros H31.
  assert (b1 = b2) as -> by (apply (anti_symm value_le); [done|by etrans]).
  etrans; [apply K12; reflexivity|apply K23; done].
Qed.

Global Instance order_by_snd_fst_total : Total order_by_snd_fst.
Proof.
  intros [a1 b1] [a2 b2]; unfold order_by_snd_fst; simpl.
  destruct (decide (value_le b1 b2)) as [H12|H12], (decide (value_le b2 b1)) as [H21|H21].
  - destruct (total value_le a1 a2); [left|right]; done.
  - left; done.
  - right; done.
  - destruct (total value_le b1 b2); done.
Qed.

Global Instance temporal_order_trans : Transitive temporal_order.
Proof. intros x y z. unfold temporal_order. apply transitivity. Qed.

Global Instance temporal_order_total : Total temporal_order.
Proof. intros x y. unfold temporal_order. apply total, _. Qed.

Global Instance by_departures_desc_trans : Transitive BikeDataPipeline.by_departures_desc.
Proof. intros x y z. unfold BikeDataPipeline.by_departures_desc. lia. Qed.

Global Instance by_departures_desc_total : Total BikeDataPipeline.by_departures_desc.
Proof. intros x y. unfold BikeDataPipeline.by_departures_desc. lia. Qed.

(** ** Machine numbers *)















(** ** Generic facts about [select] and sorted group lists *)

Lemma sorted_groups_spec {A K} `{EqDecision K} (R : relation A)
    `{∀ x y, Decision (R x y)} `{!Transitive R} `{!Total R}
    (key : A → K) (build : K → A) (ks : list K) :
  (∀ k, key (build k) = k) →
  let out := merge_sort R (build <$> remove_dups ks) in
  NoDup (key <$> out) ∧
  (∀ k, k ∈ key <$> out ↔ k ∈ ks) ∧
  (∀ r, r ∈ out → r = build (key r)) ∧
  StronglySorted R out.
Proof.
  intros Hkey out.
  assert (out ≡ₚ build <$> remove_dups ks) as Hperm
    by apply merge_sort_Permutation.
  assert (key <$> out ≡ₚ remove_dups ks) as Hkeys.
  { rewrite Hperm, <-list_fmap_compose.
    rewrite <-(list_fmap_id (remove_dups ks)) at 2.
    rewrite list_fmap_id. clear Hperm.
    induction (remove_dups ks) as [|k l IH]; simpl; [done|].
    by rewrite Hkey, IH. }
  split_and!.
  - rewrite Hkeys. apply NoDup_remove_dups.
  - intros k. rewrite Hkeys. apply elem_of_remove_dups.
  - intros r. rewrite Hperm. intros (k & -> & _)%list_elem_of_fmap.
    by rewrite Hkey.
  - apply StronglySorted_merge_sort; apply _.
Qed.




Section temporal.
Context `{!Externals}.


Lemma temporal_aggregate_spec (hour day_type total_rentals : Series) :
  let keys := zip hour day_type in
  let out := temporal_aggregate hour day_type total_rentals in
  NoDup (tr_key <$> out) ∧
  (∀ k, k ∈ tr_key <$> out ↔ k ∈ keys) ∧
  (∀ r, r ∈ out →
     r = {| tr_hour := (tr_key r).1; tr_day_type := (tr_key r).2;
            tr_avg := sql_avg (select (tr_key r) keys total_rentals) |}) ∧
  StronglySorted temporal_order out.
Proof.
  intros keys out.
  apply (sorted_groups_spec temporal_order tr_key
    (λ k, {| tr_hour := k.1; tr_day_type := k.2;
             tr_avg := sql_avg (select k keys total_rentals) |}) keys).
  by intros [].
Qed.


End temporal.



(** ** The weather aggregation *)




Section weather.
Context `{!Externals}.


Lemma collect_inr {A B} (f : A → exn + B) (l : list A) (ys : list B) :
  collect f l = inr ys → Forall2 (λ x y, f x = inr y) l ys.
Proof.
  revert ys. induction l as [|x l IH]; intros ys; simpl.
  - intros [= <-]. constructor.
  - destruct (f x) as [e|y] eqn:Hx; [done|].
    destruct (collect f l) as [e|ys'] eqn:Hl; [done|].
    intros [= <-]. constructor; [done|by apply IH].
Qed.

Lemma pd_mean_inr (xs : Series) (m : value) :
  pd_mean xs = inr m → m = pandas_mean (omap as_num xs).
Proof. unfold pd_mean. destruct (existsb is_str xs); congruence. Qed.

Lemma group_keys_NoDup (keys : Series) : NoDup (group_keys keys).
Proof.
  unfold group_keys. rewrite merge_sort_Permutation. apply NoDup_remove_dups.
Qed.

Lemma group_keys_elem (keys : Series) (k : value) :
  k ∈ group_keys keys ↔ k ∈ keys ∧ k ≠ VNull.
Proof.
  unfold group_keys.
  rewrite merge_sort_Permutation, elem_of_remove_dups, list_elem_of_filter.
  destruct k; simpl; intuition congruence.
Qed.

Lemma group_keys_sorted (keys : Series) : StronglySorted value_le (group_keys keys).
Proof. apply StronglySorted_merge_sort; apply _. Qed.

Lemma group_entry_two (keys s1 s2 : Series) (k : value) (r : value * list value) :
  match collect (λ s, pd_mean (select k keys s)) [s1; s2] with
  | inl e => inl e
  | inr ms => inr (k, ms)
  end = inr r →
  r = group_means keys s1 s2 k.
Proof.
  simpl.
  destruct (pd_mean (select k keys s1)) as [|m1] eqn:H1; [done|].
  destruct (pd_mean (select k keys s2)) as [|m2] eqn:H2; [done|].
  intros [= <-]. unfold group_means.
  by rewrite (pd_mean_inr _ _ H1), (pd_mean_inr _ _ H2).
Qed.

Lemma groupby_mean_two (df : DataFrame) (key c1 c2 : string)
    (out : list (value * list value)) :
  groupby_mean df key [c1; c2] = inr out →
  ∃ keys s1 s2,
    getitem df key = inr keys ∧ getitem df c1 = inr s1 ∧ getitem df c2 = inr s2 ∧
    out = group_means keys s1 s2 <$> group_keys keys.
Proof.
  unfold groupby_mean.
  destruct (getitem df key) as [e|keys]; [done|]. simpl.
  destruct (getitem df c1) as [e|s1]; [done|].
  destruct (getitem df c2) as [e|s2]; [done|].
  intros Hout%collect_inr. exists keys, s1, s2. split_and!; try done.
  induction Hout as [|k r ks rs Hk _ IH]; [done|].
  rewrite fmap_cons, <-IH. f_equal. by apply group_entry_two.
Qed.




End weather.



(** ** Missing grouping keys *)



(** ** Frames: how [getitem], [setitem] and [rename] act on columns *)

Lemma getitem_elem (d : DataFrame) (l : string) (c : Series) :
  getitem d l = inr c → (l, c) ∈ d ∧ ∀ c', (l, c') ∈ d → c' = c.
Proof.
  unfold getitem.
  destruct (filter (λ c, c.1 = l) d) as [|[l0 c0] [|??]] eqn:Hf; try done.
  intros [= <-]. simpl.
  assert (∀ x, x ∈ filter (λ c : string * list value, c.1 = l) d ↔ x = (l0, c0)) as Hx.
  { intros x. rewrite Hf. rewrite list_elem_of_singleton. done. }
  assert (l0 = l) as ->.
  { pose proof (proj2 (Hx (l0, c0)) eq_refl) as H0.
    by apply list_elem_of_filter in H0 as [? _]. }
  split.
  - pose proof (proj2 (Hx (l, c0)) eq_refl) as H0.
    by apply list_elem_of_filter in H0 as [_ ?].
  - intros c' Hin.
    assert ((l, c') = (l, c0)) as [= ->]; [|done].
    apply Hx, list_elem_of_filter. done.
Qed.

Lemma setitem_elem (l : string) (s : Series) (d : DataFrame) (l' : string) (c : Series) :
  (l', c) ∈ setitem l s d ↔ (l' = l ∧ c = s) ∨ (l' ≠ l ∧ (l', c) ∈ d).
Proof.
  unfold setitem, columns. case_bool_decide as Hl.
  - rewrite list_elem_of_fmap. split.
    + intros ([l0 c0] & Heq & Hin). simpl in Heq.
      case_bool_decide; simplify_eq; auto.
    + intros [[-> ->]|[Hne Hin]].
      * apply list_elem_of_fmap in Hl as ([l0 c0] & -> & Hin).
        exists (l0, c0). simpl. by rewrite bool_decide_eq_true_2.
      * exists (l', c). simpl. by rewrite bool_decide_eq_false_2.
  - rewrite elem_of_app, list_elem_of_singleton. split.
    + intros [Hin|[= -> ->]]; [|by left].
      right. split; [|done]. intros ->. apply Hl.
      apply list_elem_of_fmap. by exists (l, c).
    + intros [[-> ->]|[_ Hin]]; auto.
Qed.

Lemma setitem_filter_ne (l l' : string) (s : Series) (d : DataFrame) :
  l ≠ l' →
  filter (λ c, c.1 = l') (setitem l s d) = filter (λ c, c.1 = l') d.
Proof.
  intros Hne. unfold setitem. case_bool_decide as Hl.
  - clear Hl. induction d as [|[l0 c0] d IH]; [done|].
    rewrite fmap_cons, !filter_cons. simpl.
    case_bool_decide; simplify_eq/=.
    + rewrite !decide_False by done. exact IH.
    + case_decide; [f_equal|]; exact IH.
  - rewrite filter_app, filter_cons_False, filter_nil by (simpl; congruence).
    by rewrite app_nil_r.
Qed.

Lemma getitem_error (d : DataFrame) (l : string) (e : exn) :
  getitem d l = inl e → e = KeyError l ∨ e = ValueError.
Proof.
  unfold getitem. destruct (filter _ d) as [|? [|??]]; intros [= <-]; auto.
Qed.

Lemma getitem_setitem_ne (l l' : string) (s : Series) (d : DataFrame) :
  l ≠ l' → getitem (setitem l s d) l' = getitem d l'.
Proof. intros Hne. unfold getitem. by rewrite setitem_filter_ne. Qed.

(** In place: the columns that were there keep their position; one that
    carries the assigned label takes the new cells. *)
Lemma setitem_lookup (l : string) (s : Series) (d : DataFrame) (j : nat)
    (l0 : string) (c0 : Series) :
  d !! j = Some (l0, c0) →
  setitem l s d !! j = Some (l0, if bool_decide (l0 = l) then s else c0).
Proof.
  intros Hj. unfold setitem. case_bool_decide.
  - rewrite list_lookup_fmap, Hj. simpl. by case_bool_decide; simplify_eq.
  - rewrite lookup_app_l by (by eapply lookup_lt_Some).
    rewrite Hj. case_bool_decide; [|done]. subst l0.
    exfalso. apply H. apply list_elem_of_fmap. exists (l, c0).
    split; [done|]. by eapply list_elem_of_lookup_2.
Qed.

Lemma columns_rename (m : gmap string string) (d : DataFrame) :
  columns (rename m d) = rename_label m <$> columns d.
Proof.
  unfold columns, rename. rewrite <-!list_fmap_compose.
  apply list_fmap_ext. by intros _ [??] _.
Qed.

Lemma columns_lookup (d : DataFrame) (j : nat) (l : string) :
  columns d !! j = Some l ↔ ∃ c, d !! j = Some (l, c).
Proof.
  unfold columns. rewrite list_lookup_fmap. destruct (d !! j) as [[l0 c0]|]; simpl.
  - split; [intros [= <-]; by exists c0|intros (c & [= -> _]); done].
  - split; [done|by intros [??]].
Qed.

Lemma getitem_total (d : DataFrame) (l : string) :
  NoDup (columns d) → l ∈ columns d → ∃ c, getitem d l = inr c.
Proof.
  unfold getitem, columns.
  induction d as [|[l0 c0] d IH]; intros Hnd Hin; [by apply elem_of_nil in Hin|].
  rewrite fmap_cons in Hnd, Hin. simpl in Hnd, Hin.
  apply NoDup_cons in Hnd as [Hl0 Hnd].
  rewrite filter_cons. simpl. destruct (decide (l0 = l)) as [->|Hne].
  - assert (filter (λ c : string * list value, c.1 = l) d = []) as ->; [|by eexists].
    apply elem_of_nil_inv. intros [l1 c1] [Heq Hin1]%list_elem_of_filter.
    simpl in Heq. subst l1.
    apply Hl0, list_elem_of_fmap. by exists (l, c1).
  - apply elem_of_cons in Hin as [->|Hin]; [done|]. by apply IH.
Qed.

Lemma columns_setitem (l : string) (s : Series) (d : DataFrame) :
  columns (setitem l s d)
  = if bool_decide (l ∈ columns d) then columns d else columns d ++ [l].
Proof.
  unfold setitem, columns. case_bool_decide as Hl.
  - rewrite <-list_fmap_compose. apply list_fmap_ext.
    intros _ [l0 c0] _. simpl. by case_bool_decide.
  - by rewrite fmap_app.
Qed.

Lemma setitem_NoDup (l : string) (s : Series) (d : DataFrame) :
  NoDup (columns d) → NoDup (columns (setitem l s d)).
Proof.
  intros Hnd. rewrite columns_setitem. case_bool_decide as Hl; [done|].
  apply NoDup_app. split_and!; [done| |apply NoDup_singleton].
  intros l' Hl' ->%list_elem_of_singleton. done.
Qed.

Lemma setitem_columns_incl (l l' : string) (s : Series) (d : DataFrame) :
  l' ∈ columns d → l' ∈ columns (setitem l s d).
Proof.
  intros Hl'. rewrite columns_setitem. case_bool_decide; [done|].
  apply elem_of_app. by left.
Qed.

Lemma rename_elem (m : gmap string string) (d : DataFrame) (l : string) (c : Series) :
  (l, c) ∈ d → (rename_label m l, c) ∈ rename m d.
Proof.
  intros Hin. unfold rename. apply list_elem_of_fmap. by exists (l, c).
Qed.

Lemma rename_lookup (m : gmap string string) (d : DataFrame) (j : nat) :
  rename m d !! j = prod_map (rename_label m) id <$> d !! j.
Proof. unfold rename. apply list_lookup_fmap. Qed.

Lemma to_datetime_lookup `{!Externals} (c c' : Series) :
  to_datetime c = inr c' →
  length c' = length c ∧
  ∀ i x, c !! i = Some x → ∃ y, pd_to_datetime x = Some y ∧ c' !! i = Some y.
Proof.
  unfold to_datetime. destruct (mapM pd_to_datetime c) as [c0|] eqn:Hm; [|done].
  intros [= <-]. apply mapM_Some in Hm. split.
  - symmetry. by eapply Forall2_length.
  - intros i x Hx. destruct (Forall2_lookup_l _ _ _ _ _ Hm Hx) as (y & ? & ?).
    by exists y.
Qed.

Lemma to_datetime_total `{!Externals} (c : Series) :
  Forall (λ x, is_Some (pd_to_datetime x)) c → ∃ c', to_datetime c = inr c'.
Proof.
  intros Hall. unfold to_datetime.
  destruct (mapM_is_Some_2 pd_to_datetime c) as [c' ->]; [|by eexists].
  eapply Forall_impl; [exact Hall|]. done.
Qed.


Lemma series_mul_length (c : Series) (k : Z) : length (series_mul c k) = length c.
Proof. unfold series_mul. apply length_fmap. Qed.








(** ** The four derived columns, as both loaders compute them *)

(** Membership of a literal in a literal list. *)
Ltac in_labels :=
  solve [ repeat first [ apply list_elem_of_here | apply list_elem_of_further ] ].

Ltac not_in_labels :=
  rewrite !not_elem_of_cons; split_and!; solve [ done | apply not_elem_of_nil ].

Section derived_columns.
Variables (base : DataFrame) (flag : string) (temp hum wind flags : Series).
Variable label : value → value.

Let with_temp := setitem "temp_c" (series_mul temp 41) base.
Let with_hum := setitem "humidity_real" (series_mul hum 100) with_temp.
Let with_wind := setitem "wind_speed_real" (series_mul wind 67) with_hum.
Let out := setitem "day_type" (label <$> flags) with_wind.

Hypothesis Htemp : getitem base "temp" = inr temp.
Hypothesis Hhum : getitem with_temp "humidity_norm" = inr hum.
Hypothesis Hwind : getitem with_hum "windspeed" = inr wind.
Hypothesis Hflags : getitem with_wind flag = inr flags.
Hypothesis Hflag : flag = "is_working_day" ∨ flag = "workingday".

Lemma derived_sources :
  getitem out "temp" = inr temp ∧
  getitem out "humidity_norm" = inr hum ∧
  getitem out "windspeed" = inr wind ∧
  getitem out flag = inr flags.
Proof.
  unfold out, with_wind, with_hum, with_temp in *.
  split_and!.
  - by rewrite !getitem_setitem_ne by done.
  - do 3 (rewrite getitem_setitem_ne by done). exact Hhum.
  - do 2 (rewrite getitem_setitem_ne by done). exact Hwind.
  - rewrite getitem_setitem_ne by (destruct Hflag as [-> | ->]; done).
    exact Hflags.
Qed.

Lemma derived_elem (l : string) (c : Series) :
  (l, c) ∈ out ↔
    (l = "day_type" ∧ c = label <$> flags) ∨
    (l = "wind_speed_real" ∧ c = series_mul wind 67) ∨
    (l = "humidity_real" ∧ c = series_mul hum 100) ∨
    (l = "temp_c" ∧ c = series_mul temp 41) ∨
    ((l ∉ ["temp_c"; "humidity_real"; "wind_speed_real"; "day_type"]) ∧ (l, c) ∈ base).
Proof.
  unfold out, with_wind, with_hum, with_temp.
  rewrite !setitem_elem, !not_elem_of_cons.
  split.
  - intros [[-> ->]|[? [[-> ->]|[? [[-> ->]|[? [[-> ->]|[? ?]]]]]]]]; auto 10.
    right; right; right; right. split_and!; auto using not_elem_of_nil.
  - intros [[-> ->]|[[-> ->]|[[-> ->]|[[-> ->]|[(?&?&?&?&?) ?]]]]]; auto 10.
Qed.

Lemma derived_lookup (j : nat) (l : string) (c : Series) :
  base !! j = Some (l, c) →
  ∃ c', out !! j = Some (l, c') ∧
        (l ∉ ["temp_c"; "humidity_real"; "wind_speed_real"; "day_type"] → c' = c).
Proof.
  intros Hj. unfold out, with_wind, with_hum, with_temp.
  eexists. split.
  - do 4 (eapply setitem_lookup). exact Hj.
  - rewrite !not_elem_of_cons. intros (?&?&?&?&_).
    by rewrite !bool_decide_eq_false_2 by done.
Qed.

Lemma derived_labels (l : string) :
  l ∈ columns out →
  l ∈ columns base ∨ l ∈ ["temp_c"; "humidity_real"; "wind_speed_real"; "day_type"].
Proof.
  unfold columns. intros ([l' c] & -> & Hin)%list_elem_of_fmap. simpl.
  apply derived_elem in Hin as [[-> _]|[[-> _]|[[-> _]|[[-> _]|[_ Hin]]]]].
  - right. in_labels.
  - right. in_labels.
  - right. in_labels.
  - right. in_labels.
  - left. apply list_elem_of_fmap. by exists (l', c).
Qed.

Lemma derived_rows (n : nat) :
  Forall (λ c, length c.2 = n) base → Forall (λ c, length c.2 = n) out.
Proof.
  rewrite !Forall_forall. intros Hbase [l c] Hin. simpl.
  assert (∀ l0 c0, getitem base l0 = inr c0 → length c0 = n) as Hget.
  { intros l0 c0 [Hc0 _]%getitem_elem. exact (Hbase _ Hc0). }
  destruct derived_sources as (H1 & H2 & H3 & H4).
  assert (∀ l0 c0, l0 ∉ ["temp_c"; "humidity_real"; "wind_speed_real"; "day_type"] →
            getitem out l0 = inr c0 → length c0 = n) as Hout.
  { intros l0 c0 Hl0 [Hc0 _]%getitem_elem.
    apply derived_elem in Hc0 as [[-> _]|[[-> _]|[[-> _]|[[-> _]|[_ Hc0]]]]];
      try (exfalso; apply Hl0; in_labels).
    exact (Hbase _ Hc0). }
  apply derived_elem in Hin as [[_ ->]|[[_ ->]|[[_ ->]|[[_ ->]|[_ Hin]]]]].
  - rewrite length_fmap. eapply Hout; [|exact H4].
    destruct Hflag as [-> | ->]; not_in_labels.
  - rewrite series_mul_length. eapply Hout; [|exact H3]. not_in_labels.
  - rewrite series_mul_length. eapply Hout; [|exact H2]. not_in_labels.
  - rewrite series_mul_length. eapply Hout; [|exact H1]. not_in_labels.
  - exact (Hbase _ Hin).
Qed.

End derived_columns.

(** ** What the rename dictionaries contain *)

Lemma rename_map_entries (k v : string) :
  BikeDataLoader.rename_map !! k = Some v ↔
  (k, v) ∈ [("dteday", "date"); ("yr", "year"); ("mnth", "month"); ("hr", "hour");
            ("weathersit", "weather_code"); ("cnt", "total_rentals");
            ("hum", "humidity_norm"); ("atemp", "feel_temp_norm");
            ("workingday", "is_working_day")].
Proof.
  unfold BikeDataLoader.rename_map. symmetry. apply elem_of_list_to_map.
  compute_done.
Qed.

Lemma column_map_entries (k v : string) :
  BikeDataPipeline.column_map !! k = Some v ↔
  (k, v) ∈ [("dteday", "date"); ("yr", "year"); ("mnth", "month"); ("hr", "hour");
            ("weathersit", "weather_code"); ("cnt", "total_rentals");
            ("hum", "humidity_norm"); ("atemp", "feel_temp_norm")].
Proof.
  unfold BikeDataPipeline.column_map. symmetry. apply elem_of_list_to_map.
  compute_done.
Qed.

Lemma rename_elem_inv (m : gmap string string) (d : DataFrame) (l : string) (c : Series) :
  (l, c) ∈ rename m d → ∃ l0, l = rename_label m l0 ∧ (l0, c) ∈ d.
Proof.
  unfold rename. intros ([l0 c0] & [= -> ->] & Hin)%list_elem_of_fmap.
  by exists l0.
Qed.

Lemma rename_rows (m : gmap string string) (d : DataFrame) (n : nat) :
  Forall (λ c, length c.2 = n) d → Forall (λ c, length c.2 = n) (rename m d).
Proof.
  rewrite !Forall_forall. intros Hd [l c] (l0 & _ & Hin)%rename_elem_inv.
  exact (Hd _ Hin).
Qed.

Lemma nrows_Forall (n : nat) (d : DataFrame) (j : nat) (c : string * list value) :
  d !! j = Some c → Forall (λ c, length c.2 = n) d → nrows d = n.
Proof.
  destruct d as [|[l0 c0] d]; [done|]. intros _ Hall. simpl.
  by apply Forall_cons in Hall as [? _].
Qed.

(** ** [BikeDataLoader.load_and_clean], step by step *)

Section loader.
Context `{!Externals}.
Import BikeDataLoader.

Local Opaque getitem setitem rename to_datetime series_mul rename_map.

Lemma load_and_clean_missing (self : t) (w : World) :
  files w !! hourly_path self = None →
  load_and_clean (self, w) =
    (inl (FileNotFoundError ("Data file not found at: " +:+ hourly_path self)),
     (self, w)).
Proof.
  intros Hfile.
  unfold load_and_clean, os_path_exists, on_snd, gets, raise, mbind, M_bind.
  simpl. rewrite Hfile.
  by rewrite bool_decide_eq_false_2 by (by intros [??]).
Qed.

Lemma load_and_clean_inv (self : t) (w : World) (out : DataFrame) (s' : t * World) :
  load_and_clean (self, w) = (inr out, s') →
  ∃ d dates dates' temp hum wind flags,
    files w !! hourly_path self = Some (Csv d) ∧
    getitem (rename rename_map d) "date" = inr dates ∧
    to_datetime dates = inr dates' ∧
    let base := setitem "date" dates' (rename rename_map d) in
    let with_temp := setitem "temp_c" (series_mul temp 41) base in
    let with_hum := setitem "humidity_real" (series_mul hum 100) with_temp in
    let with_wind := setitem "wind_speed_real" (series_mul wind 67) with_hum in
    getitem base "temp" = inr temp ∧
    getitem with_temp "humidity_norm" = inr hum ∧
    getitem with_hum "windspeed" = inr wind ∧
    getitem with_wind "is_working_day" = inr flags ∧
    out = setitem "day_type" (day_label <$> flags) with_wind ∧
    df s'.1 = Some out ∧
    files s'.2 = files w.
Proof.
  unfold load_and_clean, self_df, set_df, print, write_stdout, os_path_exists,
    read_csv, on_snd, lift_result, gets, get, modify, raise, mbind, M_bind,
    mret, M_ret.
  simpl.
  destruct (files w !! hourly_path self) as [f|] eqn:Hfile;
    [rewrite bool_decide_eq_true_2 by done
    |rewrite bool_decide_eq_false_2 by (by intros [??]); done].
  simpl. rewrite Hfile. destruct f as [| |d|]; try done. simpl.
  destruct (getitem (rename rename_map d) "date") as [|c1] eqn:H1; [done|].
  destruct (to_datetime c1) as [|c1'] eqn:H1'; [done|].
  destruct (getitem _ "temp") as [|c2] eqn:H2; [done|].
  destruct (getitem _ "humidity_norm") as [|c3] eqn:H3; [done|].
  destruct (getitem _ "windspeed") as [|c4] eqn:H4; [done|].
  destruct (getitem _ "is_working_day") as [|c5] eqn:H5; [done|].
  intros [= <- <-]. exists d, c1, c1', c2, c3, c4, c5. done.
Qed.

Lemma load_and_clean_run (self : t) (w : World) (d : DataFrame)
    (dates dates' temp hum wind flags : Series) :
  files w !! hourly_path self = Some (Csv d) →
  getitem (rename rename_map d) "date" = inr dates →
  to_datetime dates = inr dates' →
  let base := setitem "date" dates' (rename rename_map d) in
  let with_temp := setitem "temp_c" (series_mul temp 41) base in
  let with_hum := setitem "humidity_real" (series_mul hum 100) with_temp in
  let with_wind := setitem "wind_speed_real" (series_mul wind 67) with_hum in
  let out := setitem "day_type" (day_label <$> flags) with_wind in
  getitem base "temp" = inr temp →
  getitem with_temp "humidity_norm" = inr hum →
  getitem with_hum "windspeed" = inr wind →
  getitem with_wind "is_working_day" = inr flags →
  load_and_clean (self, w) =
    (inr out,
     ({| hourly_path := hourly_path self; daily_path := daily_path self;
         df := Some out |},
      {| files := files w;
         stdout := stdout w ++
           [Line ("Loading data from " +:+ hourly_path self +:+ "...")] |})).
Proof.
  intros Hfile H1 H1' base with_temp with_hum with_wind out H2 H3 H4 H5.
  unfold load_and_clean, self_df, set_df, print, write_stdout, os_path_exists,
    read_csv, on_snd, lift_result, gets, get, modify, raise, mbind, M_bind,
    mret, M_ret.
  simpl. rewrite Hfile, bool_decide_eq_true_2 by done. simpl. rewrite Hfile. simpl.
  rewrite H1, H1'. fold base. rewrite H2. fold with_temp. rewrite H3.
  fold with_hum. rewrite H4. fold with_wind. by rewrite H5.
Qed.

(** A table with the expected columns, no clash between labels after
    renaming, and dates that parse is loaded without error. *)
Lemma load_and_clean_total (self : t) (w : World) (d : DataFrame) :
  files w !! hourly_path self = Some (Csv d) →
  NoDup (rename_label rename_map <$> columns d) →
  (∀ l, l ∈ ["date"; "temp"; "humidity_norm"; "windspeed"; "is_working_day"] →
        l ∈ rename_label rename_map <$> columns d) →
  (∀ l c, (l, c) ∈ d → rename_label rename_map l = "date" →
          Forall (λ x, is_Some (pd_to_datetime x)) c) →
  ∃ out s', load_and_clean (self, w) = (inr out, s').
Proof.
  intros Hfile Hnd Hlabels Hparse.
  rewrite <-columns_rename in Hnd, Hlabels.
  destruct (getitem_total (rename rename_map d) "date") as [dates Hdates];
    [done|apply Hlabels; in_labels|].
  destruct (to_datetime_total dates) as [dates' Hdates'].
  { pose proof Hdates as [Hin _]%getitem_elem.
    apply rename_elem_inv in Hin as (l0 & Hl0 & Hin). by eapply Hparse. }
  set (base := setitem "date" dates' (rename rename_map d)).
  destruct (getitem_total base "temp") as [temp Htemp];
    [by apply setitem_NoDup|apply setitem_columns_incl, Hlabels; in_labels|].
  set (with_temp := setitem "temp_c" (series_mul temp 41) base).
  destruct (getitem_total with_temp "humidity_norm") as [hum Hhum];
    [by do 2 apply setitem_NoDup
    |do 2 apply setitem_columns_incl; apply Hlabels; in_labels|].
  set (with_hum := setitem "humidity_real" (series_mul hum 100) with_temp).
  destruct (getitem_total with_hum "windspeed") as [wind Hwind];
    [by do 3 apply setitem_NoDup
    |do 3 apply setitem_columns_incl; apply Hlabels; in_labels|].
  set (with_wind := setitem "wind_speed_real" (series_mul wind 67) with_hum).
  destruct (getitem_total with_wind "is_working_day") as [flags Hflags];
    [by do 4 apply setitem_NoDup
    |do 4 apply setitem_columns_incl; apply Hlabels; in_labels|].
  do 2 eexists. by eapply load_and_clean_run.
Qed.

(** The frame after renaming and date conversion, column by column. *)
Lemma loader_base_lookup (d : DataFrame) (dates dates' : Series)
    (j : nat) (l : string) (c : Series) :
  getitem (rename rename_map d) "date" = inr dates →
  d !! j = Some (l, c) →
  setitem "date" dates' (rename rename_map d) !! j =
    Some (rename_label rename_map l,
          if bool_decide (rename_label rename_map l = "date") then dates' else c) ∧
  (rename_label rename_map l = "date" → c = dates).
Proof.
  intros Hdates Hj. split.
  - apply setitem_lookup. by rewrite rename_lookup, Hj.
  - intros Hl. apply getitem_elem in Hdates as [_ Huniq]. apply Huniq.
    rewrite <-Hl. apply rename_elem. by eapply list_elem_of_lookup_2.
Qed.

Lemma loader_base_rows (d : DataFrame) (dates dates' : Series) (n : nat) :
  getitem (rename rename_map d) "date" = inr dates →
  to_datetime dates = inr dates' →
  Forall (λ c, length c.2 = n) d →
  Forall (λ c, length c.2 = n) (setitem "date" dates' (rename rename_map d)).
Proof.
  intros Hdates [Hlen _]%to_datetime_lookup Hd.
  apply (rename_rows rename_map) in Hd.
  rewrite Forall_forall in Hd. apply Forall_forall. intros [l c] Hin. simpl.
  apply setitem_elem in Hin as [[-> ->]|[_ Hin]]; [|exact (Hd _ Hin)].
  rewrite Hlen. apply getitem_elem in Hdates as [Hin _]. exact (Hd _ Hin).
Qed.

End loader.

(** ** [BikeDataPipeline.process_data], step by step *)

Section pipeline.
Import BikeDataPipeline.

Local Opaque getitem setitem rename series_mul column_map to_sql.

Lemma process_data_missing (self : t) (w : World) :
  files w !! hourly_path self = None →
  process_data (self, w) =
    (inr tt,
     (self, {| files := files w;
               stdout := stdout w ++
                 [Line ("[!] Critical: " +:+ hourly_path self +:+ " not found.")] |})).
Proof.
  intros Hfile.
  unfold process_data, os_path_exists, print, write_stdout, on_snd, gets, modify,
    mbind, M_bind.
  simpl. rewrite Hfile.
  by rewrite bool_decide_eq_false_2 by (by intros [??]).
Qed.

Lemma process_data_inv (self : t) (w : World) (f : File) (s' : t * World) :
  files w !! hourly_path self = Some f →
  process_data (self, w) = (inr tt, s') →
  ∃ d temp hum wind flags out,
    f = Csv d ∧
    let base := rename column_map d in
    let with_temp := setitem "temp_c" (series_mul temp 41) base in
    let with_hum := setitem "humidity_real" (series_mul hum 100) with_temp in
    let with_wind := setitem "wind_speed_real" (series_mul wind 67) with_hum in
    getitem base "temp" = inr temp ∧
    getitem with_temp "humidity_norm" = inr hum ∧
    getitem with_hum "windspeed" = inr wind ∧
    getitem with_wind "workingday" = inr flags ∧
    out = setitem "day_type" (day_label <$> flags) with_wind ∧
    df s'.1 = Some out ∧
    to_sql "rentals" out (conn self) = (None, conn s'.1) ∧
    files s'.2 = files w.
Proof.
  intros Hfile.
  unfold process_data, self_df, set_df, set_conn, raise_if, print, write_stdout,
    os_path_exists, read_csv, on_snd, lift_result, gets, get, modify, raise,
    mbind, M_bind, mret, M_ret.
  simpl. rewrite Hfile, bool_decide_eq_true_2 by done.
  simpl. rewrite Hfile. destruct f as [| |d|]; try done. simpl.
  destruct (getitem _ "temp") as [|c2] eqn:H2; [done|].
  destruct (getitem _ "humidity_norm") as [|c3] eqn:H3; [done|].
  destruct (getitem _ "windspeed") as [|c4] eqn:H4; [done|].
  destruct (getitem _ "workingday") as [|c5] eqn:H5; [done|].
  destruct (to_sql _ _ _) as [[e|] conn'] eqn:Hsql; [done|].
  intros [= <-]. eexists d, c2, c3, c4, c5, _. done.
Qed.

End pipeline.

(** ** The loaders' output *)

Lemma derived_keep (base : DataFrame) (temp hum wind flags : Series)
    (label : value → value) (l : string) (c : Series) :
  l ∉ ["temp_c"; "humidity_real"; "wind_speed_real"; "day_type"] →
  (l, c) ∈ base →
  (l, c) ∈ setitem "day_type" (label <$> flags)
             (setitem "wind_speed_real" (series_mul wind 67)
               (setitem "humidity_real" (series_mul hum 100)
                 (setitem "temp_c" (series_mul temp 41) base))).
Proof. intros Hl Hin. apply derived_elem. auto 10. Qed.









(** C5.  On a table whose columns all have the same number of rows,
    [load_and_clean] returns a table when the input has the expected
    columns, no two labels clash after renaming and the dates parse; and
    whenever it returns one, the columns of the output all have the number
    of rows of the input.  Every input column is found at the same position
    in the output under its new label; unless its label is one the loader
    assigns to, its cells are the input cells, in the input order, missing
    ones included; the [date] column holds, at every row, the timestamp
    parsed from the cell the input has at that row. *)
Theorem C5_rows_preserved `{!Externals} (self : BikeDataLoader.t) (w : World)
    (d : DataFrame) :
  files w !! BikeDataLoader.hourly_path self = Some (Csv d) →
  rectangular d →
  (NoDup (rename_label BikeDataLoader.rename_map <$> columns d) →
   (∀ l, l ∈ ["date"; "temp"; "humidity_norm"; "windspeed"; "is_working_day"] →
         l ∈ rename_label BikeDataLoader.rename_map <$> columns d) →
   (∀ l c, (l, c) ∈ d → rename_label BikeDataLoader.rename_map l = "date" →
           Forall (λ x, is_Some (pd_to_datetime x)) c) →
   ∃ out s', BikeDataLoader.load_and_clean (self, w) = (inr out, s')) ∧
  (∀ out s',
     BikeDataLoader.load_and_clean (self, w) = (inr out, s') →
     nrows out = nrows d ∧
     rectangular out ∧
     ∀ j l c, d !! j = Some (l, c) →
       ∃ c', out !! j = Some (rename_label BikeDataLoader.rename_map l, c') ∧
         (rename_label BikeDataLoader.rename_map l
            ∉ ["date"; "temp_c"; "humidity_real"; "wind_speed_real"; "day_type"] →
          c' = c) ∧
         (rename_label BikeDataLoader.rename_map l = "date" →
          length c' = length c ∧
          ∀ i x, c !! i = Some x →
            ∃ y, pd_to_datetime x = Some y ∧ c' !! i = Some y)).
Proof.
  intros Hfile Hrect. split; [by apply load_and_clean_total|].
  intros out0 s' Hrun.
  apply load_and_clean_inv in Hrun
    as (d' & dates & dates' & temp & hum & wind & flags & Hfile' & Hdates & Hparse
        & Htemp & Hhum & Hwind & Hflags & -> & _).
  rewrite Hfile in Hfile'. injection Hfile' as <-.
  set (base := setitem "date" dates' (rename BikeDataLoader.rename_map d)) in *.
  set (out := setitem "day_type" _ _).
  assert (Forall (λ c, length c.2 = nrows d) out) as Hrows.
  { apply (derived_rows base "is_working_day"); try done; [by left|].
    by eapply loader_base_rows. }
  assert (∀ j l c, d !! j = Some (l, c) →
    ∃ c', out !! j = Some (rename_label BikeDataLoader.rename_map l, c') ∧
      (rename_label BikeDataLoader.rename_map l
         ∉ ["temp_c"; "humidity_real"; "wind_speed_real"; "day_type"] →
       c' = if bool_decide (rename_label BikeDataLoader.rename_map l = "date")
            then dates' else c) ∧
      (rename_label BikeDataLoader.rename_map l = "date" → c = dates)) as Hpos.
  { intros j l c Hj.
    destruct (loader_base_lookup d dates dates' j l c Hdates Hj) as [Hbase Hdate].
    destruct (derived_lookup base temp hum wind flags BikeDataLoader.day_label
                j _ _ Hbase) as (c' & Hout & Hc').
    by exists c'. }
  assert (nrows out = nrows d) as Hn.
  { apply getitem_elem in Hdates as [Hin _].
    apply rename_elem_inv in Hin as (l0 & _ & Hin).
    apply list_elem_of_lookup in Hin as [j Hj].
    destruct (Hpos j _ _ Hj) as (c' & Hout & _).
    by eapply nrows_Forall. }
  split_and!; [exact Hn|unfold rectangular; by rewrite Hn|].
  intros j l c Hj. destruct (Hpos j l c Hj) as (c' & Hout & Hc' & Hdate).
  exists c'. split_and!; [exact Hout|..].
  - rewrite not_elem_of_cons. intros [Hnd Hl]. rewrite (Hc' Hl).
    by rewrite bool_decide_eq_false_2.
  - intros Hl. rewrite Hc' by (rewrite Hl; not_in_labels).
    rewrite bool_decide_eq_true_2 by done. rewrite (Hdate Hl).
    by apply to_datetime_lookup.
Qed.

Lemma C5_rows_preserved_witness :
  files Sample.world_main !! "data/hour.csv" = Some (Csv Sample.hour_csv) ∧
  rectangular Sample.hour_csv ∧
  NoDup (rename_label BikeDataLoader.rename_map <$> columns Sample.hour_csv) ∧
  ∃ out s',
    @BikeDataLoader.load_and_clean Sample.externals (Sample.loader, Sample.world_main)
      = (inr out, s') ∧
    nrows out = 4%nat.
Proof.
  assert (files Sample.world_main !! "data/hour.csv" = Some (Csv Sample.hour_csv))
    as Hfile by (vm_compute; reflexivity).
  assert (rectangular Sample.hour_csv) as Hrect
    by (unfold rectangular; repeat constructor).
  assert (NoDup (rename_label BikeDataLoader.rename_map <$> columns Sample.hour_csv))
    as Hnd by compute_done.
  destruct (@C5_rows_preserved Sample.externals Sample.loader Sample.world_main
              Sample.hour_csv Hfile Hrect) as [Htotal Hrows].
  destruct Htotal as (out & s' & Hrun); [exact Hnd| | |].
  - intros l Hl. apply (bool_decide_unpack _).
    repeat (apply elem_of_cons in Hl as [->|Hl]; [by vm_compute|]).
    by apply elem_of_nil in Hl.
  - intros l c Hin Hl.
    repeat (apply elem_of_cons in Hin as [[= -> ->]|Hin];
            [first [by vm_compute in Hl | repeat constructor; by eexists]|]).
    by apply elem_of_nil in Hin.
  - split_and!; [exact Hfile|exact Hrect|exact Hnd|].
    exists out, s'. split; [exact Hrun|].
    exact (proj1 (Hrows out s' Hrun)).
Defined.

(** ** Column labels after loading *)

(** The labels of a frame extended with the four derived columns: the old
    ones stay in place and nothing but the four derived labels is new. *)
Lemma derived_columns_labels (m : gmap string string) (d base : DataFrame)
    (temp hum wind flags : Series) (label : value → value) :
  (∀ j l c, d !! j = Some (l, c) → ∃ c', base !! j = Some (rename_label m l, c')) →
  (∀ l, l ∈ columns base → l ∈ rename_label m <$> columns d) →
  let out := setitem "day_type" (label <$> flags)
               (setitem "wind_speed_real" (series_mul wind 67)
                 (setitem "humidity_real" (series_mul hum 100)
                   (setitem "temp_c" (series_mul temp 41) base))) in
  (∀ j l, columns d !! j = Some l → columns out !! j = Some (rename_label m l)) ∧
  (∀ l, l ∈ columns out →
     l ∈ rename_label m <$> columns d ∨
     l ∈ ["temp_c"; "humidity_real"; "wind_speed_real"; "day_type"]).
Proof.
  intros Hpos Hlabels out. split.
  - intros j l (c & Hj)%columns_lookup.
    destruct (Hpos j l c Hj) as (c1 & Hbase).
    destruct (derived_lookup base temp hum wind flags label j _ _ Hbase)
      as (c' & Hout & _).
    apply columns_lookup. by exists c'.
  - intros l [Hl|Hl]%derived_labels; [left; by apply Hlabels|by right].
Qed.

(** C2, as the code has it.  The modular loader renames with exactly the
    nine entries dteday→date, yr→year, mnth→month, hr→hour,
    weathersit→weather_code, cnt→total_rentals, hum→humidity_norm,
    atemp→feel_temp_norm, workingday→is_working_day; the thesis pipeline
    renames with exactly the first eight of them and keeps [workingday]
    under its source name.  In both, a label is compared with the keys as
    written (no case folding), every input column keeps its position under
    the label its dictionary gives it, and the only labels of the output
    that do not come from an input column are those of the four derived
    columns. *)
Theorem C2_rename_maps `{!Externals} :
  let renamed (m : gmap string string) (d out : DataFrame) : Prop :=
    (∀ j l, columns d !! j = Some l → columns out !! j = Some (rename_label m l)) ∧
    (∀ l, l ∈ columns out →
       l ∈ rename_label m <$> columns d ∨
       l ∈ ["temp_c"; "humidity_real"; "wind_speed_real"; "day_type"]) in
  (∀ k v, BikeDataLoader.rename_map !! k = Some v ↔
     (k, v) ∈ [("dteday", "date"); ("yr", "year"); ("mnth", "month"); ("hr", "hour");
               ("weathersit", "weather_code"); ("cnt", "total_rentals");
               ("hum", "humidity_norm"); ("atemp", "feel_temp_norm");
               ("workingday", "is_working_day")]) ∧
  (∀ k v, BikeDataPipeline.column_map !! k = Some v ↔
     (k, v) ∈ [("dteday", "date"); ("yr", "year"); ("mnth", "month"); ("hr", "hour");
               ("weathersit", "weather_code"); ("cnt", "total_rentals");
               ("hum", "humidity_norm"); ("atemp", "feel_temp_norm")]) ∧
  (∀ m l, rename_label m l = default l (m !! l)) ∧
  rename_label BikeDataLoader.rename_map "Hr" = "Hr" ∧
  rename_label BikeDataPipeline.column_map "workingday" = "workingday" ∧
  (∀ self w d out s',
     files w !! BikeDataLoader.hourly_path self = Some (Csv d) →
     BikeDataLoader.load_and_clean (self, w) = (inr out, s') →
     renamed BikeDataLoader.rename_map d out) ∧
  (∀ self w d s',
     files w !! BikeDataPipeline.hourly_path self = Some (Csv d) →
     BikeDataPipeline.process_data (self, w) = (inr tt, s') →
     ∃ out, BikeDataPipeline.df s'.1 = Some out ∧
            renamed BikeDataPipeline.column_map d out).
Proof.
  intros renamed.
  split_and!; [apply rename_map_entries|apply column_map_entries|done
              |by vm_compute|by vm_compute|..].
  - intros self w d out s' Hfile Hrun.
    apply load_and_clean_inv in Hrun
      as (d' & dates & dates' & temp & hum & wind & flags & Hfile' & Hdates & _
          & _ & _ & _ & _ & -> & _).
    rewrite Hfile in Hfile'. injection Hfile' as <-.
    apply derived_columns_labels.
    + intros j l c Hj.
      destruct (loader_base_lookup d dates dates' j l c Hdates Hj) as [Hbase _].
      eauto.
    + intros l ([l' c] & -> & Hin)%list_elem_of_fmap. simpl.
      rewrite <-columns_rename.
      apply setitem_elem in Hin as [[-> ->]|[_ Hin]].
      * apply getitem_elem in Hdates as [Hin _].
        apply list_elem_of_fmap. by exists ("date", dates).
      * apply list_elem_of_fmap. by exists (l', c).
  - intros self w d s' Hfile Hrun.
    apply (process_data_inv _ _ _ _ Hfile) in Hrun
      as (d' & temp & hum & wind & flags & out & [= <-] & _ & _ & _ & _ & -> & Hdf & _).
    eexists. split; [exact Hdf|].
    apply derived_columns_labels.
    + intros j l c Hj. exists c. by rewrite rename_lookup, Hj.
    + intros l Hl. by rewrite <-columns_rename.
Qed.

Lemma C2_rename_maps_witness :
  files Sample.world_thesis !! "hour.csv" = Some (Csv Sample.hour_csv) ∧
  ∃ out s',
    BikeDataPipeline.process_data (Sample.pipeline, Sample.world_thesis) = (inr tt, s') ∧
    BikeDataPipeline.df s'.1 = Some out ∧
    columns out !! 2%nat = Some "workingday".
Proof.
  assert (files Sample.world_thesis !! "hour.csv" = Some (Csv Sample.hour_csv))
    as Hfile by (vm_compute; reflexivity).
  split; [exact Hfile|].
  assert (∃ s', BikeDataPipeline.process_data (Sample.pipeline, Sample.world_thesis)
                  = (inr tt, s')) as (s' & Hrun)
    by (eexists; vm_compute; reflexivity).
  destruct (proj2 (proj2 (proj2 (proj2 (proj2 (proj2 (@C2_rename_maps Sample.externals))))))
              Sample.pipeline Sample.world_thesis Sample.hour_csv s' Hfile Hrun)
    as (out & Hdf & Hpos & _).
  exists out, s'. split_and!; [exact Hrun|exact Hdf|].
  exact (Hpos 2%nat "workingday" eq_refl).
Defined.

(** C2 as the specification words it (the nine-entry dictionary in every
    variant) does not hold of the thesis pipeline: after [process_data] the
    flag column is still labelled [workingday] and no column is labelled
    [is_working_day], although the nine-entry dictionary would rename it. *)
Lemma C2_counterexample :
  rename_label BikeDataLoader.rename_map "workingday" = "is_working_day" ∧
  "workingday" ∈ columns Sample.hour_csv ∧
  (columns <$> BikeDataPipeline.df
     (BikeDataPipeline.process_data (Sample.pipeline, Sample.world_thesis)).2.1)
  = Some ["date"; "hour"; "workingday"; "weather_code"; "temp"; "humidity_norm";
          "windspeed"; "casual"; "registered"; "total_rentals"; "temp_c";
          "humidity_real"; "wind_speed_real"; "day_type"].
Proof. split_and!; [by vm_compute|in_labels|by vm_compute]. Qed.

(** ** A missing hourly file *)

Lemma images_makedirs (fs : gmap string File) (path : string) :
  fs !! path = None →
  filter (λ kv : string * File, is_png kv.2 = true) (<[path := Dir]> fs)
  = filter (λ kv : string * File, is_png kv.2 = true) fs.
Proof.
  intros Hnone. apply map_filter_insert_not'; [done|].
  intros y Hy. by rewrite Hnone in Hy.
Qed.

(** C1, as the code has it.  On a path that names no file,
    [load_and_clean] raises [FileNotFoundError] and changes nothing, so the
    run of [main.py] ends with that error and the image files are those
    that were there before.  [process_data] does not raise on such a path:
    it prints the line "[!] Critical: <path> not found." and returns
    normally, touching neither the files, nor the frame, nor the
    connection of the pipeline; the temporal analysis that the script runs
    next on a fresh pipeline then stops on the missing [rentals] table
    before any chart is saved. *)
Theorem C1_missing_hourly_file `{!Externals} (w : World) (p : string) :
  files w !! p = None →
  (∀ self, BikeDataLoader.hourly_path self = p →
     BikeDataLoader.load_and_clean (self, w) =
       (inl (FileNotFoundError ("Data file not found at: " +:+ p)), (self, w))) ∧
  (p = "data/hour.csv" →
     ∃ w', main w = (inl (FileNotFoundError ("Data file not found at: " +:+ p)), w') ∧
           images w' = images w ∧ stdout w' = stdout w) ∧
  (∀ self, BikeDataPipeline.hourly_path self = p →
     BikeDataPipeline.process_data (self, w) =
       (inr tt,
        (self, {| files := files w;
                  stdout := stdout w ++
                    [Line ("[!] Critical: " +:+ p +:+ " not found.")] |}))) ∧
  (∀ self, BikeDataPipeline.hourly_path self = p →
     BikeDataPipeline.conn self !! "rentals" = None →
     ∃ s',
       (BikeDataPipeline.process_data;; BikeDataPipeline.run_temporal_analysis)
         (self, w)
       = (inl (DatabaseError "no such table: rentals"), s') ∧
       files s'.2 = files w).
Proof.
  intros Hfile. split_and!.
  - intros self <-. by apply load_and_clean_missing.
  - intros ->. unfold main, with_obj, os_path_exists, os_makedirs, gets, modify,
      mbind, M_bind, mret, M_ret.
    destruct (files w !! "output") as [f|] eqn:Hout.
    + rewrite bool_decide_eq_true_2 by done. simpl.
      rewrite load_and_clean_missing by done. simpl. by exists w.
    + rewrite bool_decide_eq_false_2 by (by intros [??]).
      unfold get. simpl. rewrite Hout. simpl.
      rewrite load_and_clean_missing
        by (simpl; rewrite lookup_insert_ne by done; done).
      simpl. eexists. split; [done|]. split; [|done].
      unfold images. simpl. by apply images_makedirs.
  - intros self <-. by apply process_data_missing.
  - intros self <- Hconn. unfold mbind at 1, M_bind at 1.
    rewrite process_data_missing by done.
    unfold BikeDataPipeline.run_temporal_analysis, temporal_query, sql_table,
      print, write_stdout, on_snd, lift_result, gets, modify, mbind, M_bind.
    simpl. rewrite Hconn. by eexists.
Qed.

Lemma C1_missing_hourly_file_witness :
  files Sample.world_empty !! "data/hour.csv" = None ∧
  ∃ w', @main Sample.externals Sample.world_empty =
          (inl (FileNotFoundError "Data file not found at: data/hour.csv"), w') ∧
        images w' = images Sample.world_empty.
Proof.
  assert (files Sample.world_empty !! "data/hour.csv" = None) as Hfile by done.
  split; [exact Hfile|].
  destruct (proj1 (proj2 (@C1_missing_hourly_file Sample.externals
                            Sample.world_empty "data/hour.csv" Hfile)) eq_refl)
    as (w' & Hrun & Himg & _).
  by exists w'.
Defined.

(** C1 as the specification words it does not hold of [process_data]: on a
    path that names no file it returns normally instead of raising. *)
Lemma C1_counterexample :
  files Sample.world_empty !! BikeDataPipeline.hourly_path Sample.pipeline = None ∧
  (BikeDataPipeline.process_data (Sample.pipeline, Sample.world_empty)).1 = inr tt.
Proof. split; by vm_compute. Qed.

(** ** The optional spatial step *)

Lemma top_start_stations_spec (stations : Series) :
  let top := BikeDataPipeline.top_start_stations stations in
  length top = (5 `min` length (remove_dups stations))%nat ∧
  StronglySorted BikeDataPipeline.by_departures_desc top ∧
  NoDup top.*1 ∧
  (∀ k n, (k, n) ∈ top →
     k ∈ stations ∧ n = length (filter (λ x, x = k) stations)) ∧
  (∀ k, k ∈ stations → k ∉ top.*1 →
     ∀ r, r ∈ top → (length (filter (λ x, x = k) stations) ≤ r.2)%nat).
Proof.
  intros top. unfold top, BikeDataPipeline.top_start_stations.
  set (sorted := merge_sort BikeDataPipeline.by_departures_desc
                   (BikeDataPipeline.departures stations)).
  assert (sorted ≡ₚ BikeDataPipeline.departures stations) as Hperm
    by apply merge_sort_Permutation.
  assert (StronglySorted BikeDataPipeline.by_departures_desc sorted) as Hsorted
    by (apply StronglySorted_merge_sort; apply _).
  assert ((BikeDataPipeline.departures stations).*1 = remove_dups stations) as Hkeys.
  { unfold BikeDataPipeline.departures. rewrite <-list_fmap_compose.
    rewrite <-(list_fmap_id (remove_dups stations)) at 2.
    by apply list_fmap_ext. }
  assert (∀ k n, (k, n) ∈ sorted ↔
            k ∈ stations ∧ n = length (filter (λ x, x = k) stations)) as Helem.
  { intros k n. rewrite Hperm. unfold BikeDataPipeline.departures.
    rewrite list_elem_of_fmap. split.
    - intros (k' & Heq & Hin). rewrite elem_of_remove_dups in Hin.
      injection Heq as -> ->. by split.
    - intros [Hin ->]. exists k. split; [done|]. by apply elem_of_remove_dups. }
  rewrite <-(take_drop 5 sorted) in Hsorted.
  split_and!.
  - rewrite length_take, Hperm. unfold BikeDataPipeline.departures.
    by rewrite length_fmap.
  - by eapply StronglySorted_app_1_l.
  - rewrite fmap_take. eapply sublist_NoDup; [|apply sublist_take].
    rewrite Hperm, Hkeys. apply NoDup_remove_dups.
  - intros k n Hin. apply Helem.
    apply elem_of_take in Hin as (i & Hi & _). by eapply list_elem_of_lookup_2.
  - intros k Hk Hnot r Hr.
    set (n := length (filter (λ x, x = k) stations)).
    assert ((k, n) ∈ sorted) as Hin by (by apply Helem).
    rewrite <-(take_drop 5 sorted) in Hin.
    apply elem_of_app in Hin as [Hin|Hin].
    + destruct Hnot. apply list_elem_of_fmap. by exists (k, n).
    + exact (StronglySorted_app_1_elem_of _ _ _ _ _ Hsorted Hr Hin).
Qed.

Lemma sql_column_elem (t : DataFrame) (l : string) (c : Series) :
  NoDup (sql_ident <$> columns t) → (l, c) ∈ t → sql_column t l = inr c.
Proof.
  unfold sql_column, columns.
  induction t as [|[l0 c0] t IH]; intros Hnd Hin; [by apply elem_of_nil in Hin|].
  rewrite !fmap_cons in Hnd. simpl in Hnd. apply NoDup_cons in Hnd as [Hl0 Hnd].
  rewrite filter_cons. simpl. destruct (decide (sql_ident l0 = sql_ident l)) as [Heq|Hne].
  - apply elem_of_cons in Hin as [[= -> ->]|Hin]; [done|].
    destruct Hl0. rewrite Heq. apply list_elem_of_fmap. exists l. split; [done|].
    apply list_elem_of_fmap. by exists (l, c).
  - apply elem_of_cons in Hin as [[= -> ->]|Hin]; [done|]. by apply IH.
Qed.

Section spatial.
Import BikeDataPipeline.
Local Opaque top_start_stations sql_column stations_frame.

Lemma run_spatial_analysis_skip (self : t) (w : World) :
  (truthy (trips_path self) = false ∨
   ∃ p, trips_path self = Some p ∧ files w !! p = None) →
  run_spatial_analysis (self, w) =
    (inr tt,
     (self, {| files := files w;
               stdout := stdout w ++
                 [Line "--- Checking for Spatial Data ---"; Line skip_message;
                  Line "Note: The standard UCI dataset is aggregated and lacks station coordinates."] |})).
Proof.
  intros Hskip.
  unfold run_spatial_analysis, os_path_exists, print, write_stdout, on_snd, gets,
    modify, mbind, M_bind, mret, M_ret.
  simpl.
  destruct Hskip as [-> | (p & Hp & Hfile)].
  - simpl. by rewrite <-!(assoc_L (++)).
  - rewrite Hp. simpl.
    destruct (bool_decide (p = "")); simpl;
      rewrite ?Hfile, ?bool_decide_eq_false_2 by (by intros [??]);
      simpl; by rewrite <-!(assoc_L (++)).
Qed.

Lemma run_spatial_analysis_found (self : t) (w : World) (p : string)
    (trips : DataFrame) (stations : Series) :
  trips_path self = Some p → p ≠ "" →
  files w !! p = Some (Csv trips) →
  NoDup (sql_ident <$> columns trips) →
  sql_column trips "Start Station" = inr stations →
  run_spatial_analysis (self, w) =
    (inr tt,
     ({| hourly_path := hourly_path self; daily_path := daily_path self;
         trips_path := trips_path self;
         conn := <["raw_trips" := trips]> (conn self); df := df self |},
      {| files := files w;
         stdout := stdout w ++
           [Line "--- Checking for Spatial Data ---";
            Line "Loading raw trip logs for spatial analysis...";
            Table (stations_frame (top_start_stations stations))] |})).
Proof.
  intros Hp Hne Hfile Hnodup Hcol.
  unfold run_spatial_analysis, set_conn, top_stations_query, sql_table, to_sql,
    read_csv, os_path_exists, print, write_stdout, on_snd, lift_result, gets, get,
    modify, raise, mbind, M_bind, mret, M_ret.
  simpl. rewrite Hp. simpl.
  rewrite (bool_decide_eq_false_2 (p = "")) by done. simpl.
  rewrite Hfile, bool_decide_eq_true_2 by done. simpl.
  rewrite Hfile. simpl.
  rewrite bool_decide_eq_true_2 by done. simpl.
  rewrite lookup_insert_eq, Hcol. simpl.
  by rewrite <-!(assoc_L (++)), Hp.
Qed.

Lemma run_spatial_analysis_clash (self : t) (w : World) (p : string)
    (trips : DataFrame) :
  trips_path self = Some p → p ≠ "" →
  files w !! p = Some (Csv trips) →
  ¬ NoDup (sql_ident <$> columns trips) →
  run_spatial_analysis (self, w) =
    (inl (DatabaseError "duplicate column name"),
     ({| hourly_path := hourly_path self; daily_path := daily_path self;
         trips_path := trips_path self;
         conn := delete "raw_trips" (conn self); df := df self |},
      {| files := files w;
         stdout := stdout w ++
           [Line "--- Checking for Spatial Data ---";
            Line "Loading raw trip logs for spatial analysis..."] |})).
Proof.
  intros Hp Hne Hfile Hdup.
  unfold run_spatial_analysis, set_conn, raise_if, to_sql,
    read_csv, os_path_exists, print, write_stdout, on_snd, lift_result, gets, get,
    modify, raise, mbind, M_bind, mret, M_ret.
  simpl. rewrite Hp. simpl.
  rewrite (bool_decide_eq_false_2 (p = "")) by done. simpl.
  rewrite Hfile, bool_decide_eq_true_2 by done. simpl.
  rewrite Hfile. simpl.
  rewrite bool_decide_eq_false_2 by done. simpl.
  by rewrite <-!(assoc_L (++)), Hp.
Qed.

Lemma run_spatial_analysis_locked (self : t) (w : World) (p : string) :
  trips_path self = Some p → p ≠ "" →
  files w !! p = Some Locked →
  (run_spatial_analysis (self, w)).1 = inl PermissionError.
Proof.
  intros Hp Hne Hfile.
  unfold run_spatial_analysis, read_csv, os_path_exists, print, write_stdout,
    on_snd, gets, get, modify, raise, mbind, M_bind, mret, M_ret.
  simpl. rewrite Hp. simpl.
  rewrite (bool_decide_eq_false_2 (p = "")) by done. simpl.
  rewrite Hfile, bool_decide_eq_true_2 by done. simpl.
  by rewrite Hfile.
Qed.

End spatial.

(** C8, as the code has it.  [run_spatial_analysis] skips (prints the
    notice that the trip log was not found, prints no table, raises
    nothing and changes neither the files nor the pipeline) exactly when no
    trips path is configured or the path names no file.  When the path
    names a readable table whose column names are distinct without regard
    to case and that has a column "Start Station", it prints one table
    with the columns "Start Station" and "departures" holding, for at most
    five stations, the station and the number of rows that start there:
    five rows, or as many as there are distinct stations if fewer, each
    station once, ordered by decreasing count, and no station left out has
    more rows than a listed one; which stations of equal count come first
    is not fixed.  When two column names of the table are equal without
    regard to case, the step raises a database error after the two
    progress lines and prints no table.  A path that exists but cannot be opened is not
    skipped: the error of the read propagates. *)
Theorem C8_spatial_analysis (self : BikeDataPipeline.t) (w : World) :
  ((BikeDataPipeline.truthy (BikeDataPipeline.trips_path self) = false ∨
    ∃ p, BikeDataPipeline.trips_path self = Some p ∧ files w !! p = None) →
   BikeDataPipeline.run_spatial_analysis (self, w) =
     (inr tt,
      (self, {| files := files w;
                stdout := stdout w ++
                  [Line "--- Checking for Spatial Data ---";
                   Line "[Info] 'trips.csv' not found. Skipping spatial module.";
                   Line "Note: The standard UCI dataset is aggregated and lacks station coordinates."] |}))) ∧
  (∀ p trips stations,
     BikeDataPipeline.trips_path self = Some p → p ≠ "" →
     files w !! p = Some (Csv trips) →
     NoDup (sql_ident <$> columns trips) →
     ("Start Station", stations) ∈ trips →
     ∃ (rows : list (value * nat)) self',
       BikeDataPipeline.run_spatial_analysis (self, w) =
         (inr tt,
          (self', {| files := files w;
                     stdout := stdout w ++
                       [Line "--- Checking for Spatial Data ---";
                        Line "Loading raw trip logs for spatial analysis...";
                        Table [("Start Station", rows.*1);
                               ("departures",
                                (λ r, VNum (Qc_of_Z (Z.of_nat r.2))) <$> rows)]] |})) ∧
       length rows = (5 `min` length (remove_dups stations))%nat ∧
       StronglySorted (λ x y, (y.2 ≤ x.2)%nat) rows ∧
       NoDup rows.*1 ∧
       (∀ k n, (k, n) ∈ rows →
          k ∈ stations ∧ n = length (filter (λ x, x = k) stations)) ∧
       (∀ k, k ∈ stations → k ∉ rows.*1 →
          ∀ r, r ∈ rows → (length (filter (λ x, x = k) stations) ≤ r.2)%nat)) ∧
  (∀ p trips,
     BikeDataPipeline.trips_path self = Some p → p ≠ "" →
     files w !! p = Some (Csv trips) →
     ¬ NoDup (sql_ident <$> columns trips) →
     ∃ msg s',
       BikeDataPipeline.run_spatial_analysis (self, w)
         = (inl (DatabaseError msg), s') ∧
       files s'.2 = files w ∧
       stdout s'.2 = stdout w ++
         [Line "--- Checking for Spatial Data ---";
          Line "Loading raw trip logs for spatial analysis..."]) ∧
  (∀ p, BikeDataPipeline.trips_path self = Some p → p ≠ "" →
     files w !! p = Some Locked →
     (BikeDataPipeline.run_spatial_analysis (self, w)).1 = inl PermissionError).
Proof.
  split_and!.
  - apply run_spatial_analysis_skip.
  - intros p trips stations Hp Hne Hfile Hnodup Hcol.
    destruct (top_start_stations_spec stations) as (Hlen & Hsorted & Hnd & Hin & Hout).
    exists (BikeDataPipeline.top_start_stations stations). eexists.
    split_and!; try done.
    by erewrite run_spatial_analysis_found; [|done..|by apply sql_column_elem].
  - intros p trips Hp Hne Hfile Hdup. eexists _, _.
    by erewrite run_spatial_analysis_clash.
  - apply run_spatial_analysis_locked.
Qed.

Lemma C8_spatial_analysis_witness :
  (∃ p, BikeDataPipeline.trips_path Sample.pipeline = Some p ∧
        files Sample.world_empty !! p = None) ∧
  (BikeDataPipeline.run_spatial_analysis (Sample.pipeline, Sample.world_empty)).1
    = inr tt ∧
  files Sample.world_thesis !! "trips.csv" = Some (Csv Sample.trips_csv) ∧
  (∃ rows : list (value * nat),
     Table [("Start Station", rows.*1);
            ("departures", (λ r, VNum (Qc_of_Z (Z.of_nat r.2))) <$> rows)]
       ∈ stdout (BikeDataPipeline.run_spatial_analysis
                   (Sample.pipeline, Sample.world_thesis)).2.2 ∧
     length rows = 3%nat) ∧
  files Sample.world_clash !! "trips.csv" = Some (Csv Sample.clash_csv) ∧
  ∃ msg,
    (BikeDataPipeline.run_spatial_analysis (Sample.pipeline, Sample.world_clash)).1
      = inl (DatabaseError msg).
Proof.
  assert (∃ p, BikeDataPipeline.trips_path Sample.pipeline = Some p ∧
               files Sample.world_empty !! p = None) as Habsent
    by (by exists "trips.csv").
  assert (files Sample.world_thesis !! "trips.csv" = Some (Csv Sample.trips_csv))
    as Hfile by (by vm_compute).
  assert (NoDup (sql_ident <$> columns Sample.trips_csv)) as Hnodup
    by compute_done.
  assert (files Sample.world_clash !! "trips.csv" = Some (Csv Sample.clash_csv))
    as Hclash by (by vm_compute).
  assert (¬ NoDup (sql_ident <$> columns Sample.clash_csv)) as Hdup
    by compute_done.
  split_and!; [exact Habsent| |exact Hfile| |exact Hclash|].
  - by rewrite (proj1 (C8_spatial_analysis Sample.pipeline Sample.world_empty)
                  (or_intror Habsent)).
  - destruct (proj1 (proj2 (C8_spatial_analysis Sample.pipeline Sample.world_thesis))
                "trips.csv" Sample.trips_csv
                [VStr "A"; VStr "B"; VStr "A"; VStr "C"; VStr "B"; VStr "A"]
                eq_refl ltac:(discriminate) Hfile Hnodup ltac:(left))
      as (rows & self' & Hrun & Hlen & _).
    exists rows. split; [|exact Hlen].
    rewrite Hrun. simpl. rewrite !elem_of_cons. auto.
  - destruct (proj1 (proj2 (proj2 (C8_spatial_analysis Sample.pipeline Sample.world_clash)))
                "trips.csv" Sample.clash_csv eq_refl ltac:(discriminate) Hclash Hdup)
      as (msg & s' & Hrun & _).
    exists msg. by rewrite Hrun.
Defined.

(** C8 as the specification words it does not hold on a trips path that
    exists but cannot be read: the step raises instead of skipping. *)
Lemma C8_counterexample :
  files Sample.world_locked_trips !! "trips.csv" = Some Locked ∧
  BikeDataPipeline.trips_path Sample.pipeline = Some "trips.csv" ∧
  (BikeDataPipeline.run_spatial_analysis (Sample.pipeline, Sample.world_locked_trips)).1
    = inl PermissionError.
Proof. split_and!; by vm_compute. Qed.

(** ** The weather chart of the thesis pipeline *)

(** C9.  The call that draws the weather chart in the thesis pipeline is
    written with a [color=] keyword that has no value, unlike the
    corresponding call of the modular analyzer, whose keywords all have
    one.  Whatever the pipeline and the world, [run_weather_impact_study]
    therefore ends in a syntax error and leaves the world, image files
    included, as it was; the script that contains it fails the same way
    before doing anything.  The modular analyzer's rendering does run: on
    the sample data [main.py] completes and leaves a chart in
    [output/user_analysis.png]. *)
Theorem C9_incomplete_color_argument `{!Externals} :
  ("color", None) ∈ BikeDataPipeline.plot_kwargs ∧
  call_wellformed BikeDataPipeline.plot_kwargs = false ∧
  call_wellformed BikeAnalyzer.plot_kwargs = true ∧
  (∀ self w,
     BikeDataPipeline.run_weather_impact_study (self, w)
       = (inl SyntaxError, (self, w))) ∧
  (∀ w, BikeDataPipeline.script w = (inl SyntaxError, w)) ∧
  (@main Sample.externals Sample.world_main).1 = inr tt ∧
  is_png <$> files (@main Sample.externals Sample.world_main).2
               !! "output/user_analysis.png" = Some true.
Proof.
  split_and!; [in_labels|done|done|done|done|by vm_compute|by vm_compute].
Qed.

(** * Further properties of the scripts *)

(** Unfolds the world operations and the monad down to pairs. *)
Ltac unfold_monad :=
  unfold raise_if, print, write_stdout, os_path_exists, os_makedirs, read_csv,
    savefig, on_snd, with_obj, lift_result, gets, get, modify, raise, mbind,
    M_bind, mret, M_ret.

Lemma getitem_missing (d : DataFrame) (l : string) :
  l ∉ columns d → getitem d l = inl (KeyError l).
Proof.
  intros Hl. unfold getitem.
  assert (filter (λ c : string * list value, c.1 = l) d = []) as ->; [|done].
  apply elem_of_nil_inv. intros [l1 c1] [Heq Hin]%list_elem_of_filter.
  simpl in Heq. subst l1. apply Hl, list_elem_of_fmap. by exists (l, c1).
Qed.

Lemma to_datetime_fails `{!Externals} (c : Series) :
  ¬ Forall (λ x, is_Some (pd_to_datetime x)) c → to_datetime c = inl ValueError.
Proof.
  intros Hc. unfold to_datetime.
  destruct (mapM pd_to_datetime c) as [c'|] eqn:Hm; [|done].
  destruct Hc. apply (mapM_is_Some_1 pd_to_datetime). by rewrite Hm.
Qed.

(** ** What the two loaders read and what they leave behind *)

Section loaders_io.
Context `{!Externals}.

Local Opaque getitem setitem rename to_datetime series_mul to_sql
  BikeDataLoader.rename_map BikeDataPipeline.column_map.

Lemma load_and_clean_local (self : BikeDataLoader.t) (w1 w2 : World) :
  files w1 !! BikeDataLoader.hourly_path self
    = files w2 !! BikeDataLoader.hourly_path self →
  stdout w1 = stdout w2 →
  let r1 := BikeDataLoader.load_and_clean (self, w1) in
  let r2 := BikeDataLoader.load_and_clean (self, w2) in
  r1.1 = r2.1 ∧ r1.2.1 = r2.2.1 ∧ stdout r1.2.2 = stdout r2.2.2 ∧
  files r1.2.2 = files w1 ∧ files r2.2.2 = files w2.
Proof.
  intros Hfile Hout.
  unfold BikeDataLoader.load_and_clean, BikeDataLoader.self_df, BikeDataLoader.set_df.
  unfold_monad. simpl.
  destruct (files w1 !! BikeDataLoader.hourly_path self) as [f|] eqn:H1;
    rewrite <-Hfile;
    [rewrite !bool_decide_eq_true_2 by done
    |rewrite !bool_decide_eq_false_2 by (by intros [??]); done].
  simpl. rewrite <-Hfile, H1, <-Hout.
  destruct f as [| |d|]; simpl; try done.
  repeat (case_match; simpl; try done).
Qed.

Lemma process_data_local (self : BikeDataPipeline.t) (w1 w2 : World) :
  files w1 !! BikeDataPipeline.hourly_path self
    = files w2 !! BikeDataPipeline.hourly_path self →
  stdout w1 = stdout w2 →
  let r1 := BikeDataPipeline.process_data (self, w1) in
  let r2 := BikeDataPipeline.process_data (self, w2) in
  r1.1 = r2.1 ∧ r1.2.1 = r2.2.1 ∧ stdout r1.2.2 = stdout r2.2.2 ∧
  files r1.2.2 = files w1 ∧ files r2.2.2 = files w2.
Proof.
  intros Hfile Hout.
  unfold BikeDataPipeline.process_data, BikeDataPipeline.self_df,
    BikeDataPipeline.set_df, BikeDataPipeline.set_conn.
  unfold_monad. simpl.
  destruct (files w1 !! BikeDataPipeline.hourly_path self) as [f|] eqn:H1;
    rewrite <-Hfile;
    [rewrite !bool_decide_eq_true_2 by done
    |rewrite !bool_decide_eq_false_2 by (by intros [??]); simpl; by rewrite Hout].
  simpl. rewrite <-Hfile, H1, <-Hout.
  destruct f as [| |d|]; simpl; try done.
  repeat (first [destruct (to_sql _ _ _) as [[?|] ?]|case_match]; simpl; try done).
Qed.

(** X1.  Either loader consults the file tree at its hourly path only and
    never changes it: in two worlds that agree on that path and on what
    has been printed, it ends with the same result or exception, the same
    object state and the same printed lines, and in each world the files
    after the call are the files before it.  The daily path stored in the
    object is never read. *)
Theorem X1_loaders_read_hourly_file_only (w1 w2 : World) :
  stdout w1 = stdout w2 →
  (∀ self,
     files w1 !! BikeDataLoader.hourly_path self
       = files w2 !! BikeDataLoader.hourly_path self →
     let r1 := BikeDataLoader.load_and_clean (self, w1) in
     let r2 := BikeDataLoader.load_and_clean (self, w2) in
     r1.1 = r2.1 ∧ r1.2.1 = r2.2.1 ∧ stdout r1.2.2 = stdout r2.2.2 ∧
     files r1.2.2 = files w1 ∧ files r2.2.2 = files w2) ∧
  (∀ self,
     files w1 !! BikeDataPipeline.hourly_path self
       = files w2 !! BikeDataPipeline.hourly_path self →
     let r1 := BikeDataPipeline.process_data (self, w1) in
     let r2 := BikeDataPipeline.process_data (self, w2) in
     r1.1 = r2.1 ∧ r1.2.1 = r2.2.1 ∧ stdout r1.2.2 = stdout r2.2.2 ∧
     files r1.2.2 = files w1 ∧ files r2.2.2 = files w2).
Proof.
  intros Hout. split; intros self Hfile.
  - by apply load_and_clean_local.
  - by apply process_data_local.
Qed.

Lemma load_and_clean_unreadable (self : BikeDataLoader.t) (w : World) (f : File) :
  files w !! BikeDataLoader.hourly_path self = Some f →
  f = Dir ∨ f = Locked →
  BikeDataLoader.load_and_clean (self, w) =
    (inl (if is_dir (Some f) then IsADirectoryError else PermissionError),
     (self, {| files := files w;
               stdout := stdout w ++
                 [Line ("Loading data from " +:+ BikeDataLoader.hourly_path self
                        +:+ "...")] |})).
Proof.
  intros Hfile Hf.
  unfold BikeDataLoader.load_and_clean. unfold_monad. simpl.
  rewrite Hfile, bool_decide_eq_true_2 by done. simpl. rewrite Hfile.
  by destruct Hf as [-> | ->].
Qed.

Lemma process_data_unreadable (self : BikeDataPipeline.t) (w : World) (f : File) :
  files w !! BikeDataPipeline.hourly_path self = Some f →
  f = Dir ∨ f = Locked →
  BikeDataPipeline.process_data (self, w) =
    (inl (if is_dir (Some f) then IsADirectoryError else PermissionError),
     (self, {| files := files w;
               stdout := stdout w ++
                 [Line ("Loading data from " +:+ BikeDataPipeline.hourly_path self
                        +:+ "...")] |})).
Proof.
  intros Hfile Hf.
  unfold BikeDataPipeline.process_data. unfold_monad. simpl.
  rewrite Hfile, bool_decide_eq_true_2 by done. simpl. rewrite Hfile.
  by destruct Hf as [-> | ->].
Qed.

(** X2.  The existence test is the only guard in front of the read: when
    the hourly path names a directory or a file that cannot be opened,
    either loader prints its "Loading data from ..." line and then lets the
    error of the read through ([IsADirectoryError], [PermissionError]),
    leaving the object as it was. *)
Theorem X2_existing_unreadable_hourly_path (w : World) (p : string) (f : File) :
  files w !! p = Some f →
  f = Dir ∨ f = Locked →
  let after :=
    {| files := files w;
       stdout := stdout w ++ [Line ("Loading data from " +:+ p +:+ "...")] |} in
  let error := if is_dir (Some f) then IsADirectoryError else PermissionError in
  (∀ self, BikeDataLoader.hourly_path self = p →
     BikeDataLoader.load_and_clean (self, w) = (inl error, (self, after))) ∧
  (∀ self, BikeDataPipeline.hourly_path self = p →
     BikeDataPipeline.process_data (self, w) = (inl error, (self, after))).
Proof.
  intros Hfile Hf after error. split; intros self <-.
  - by apply load_and_clean_unreadable.
  - by apply process_data_unreadable.
Qed.

Lemma load_and_clean_no_date (self : BikeDataLoader.t) (w : World) (d : DataFrame) :
  files w !! BikeDataLoader.hourly_path self = Some (Csv d) →
  "date" ∉ (rename_label BikeDataLoader.rename_map <$> columns d) →
  BikeDataLoader.load_and_clean (self, w) =
    (inl (KeyError "date"),
     ({| BikeDataLoader.hourly_path := BikeDataLoader.hourly_path self;
         BikeDataLoader.daily_path := BikeDataLoader.daily_path self;
         BikeDataLoader.df := Some (rename BikeDataLoader.rename_map d) |},
      {| files := files w;
         stdout := stdout w ++
           [Line ("Loading data from " +:+ BikeDataLoader.hourly_path self
                  +:+ "...")] |})).
Proof.
  intros Hfile Hdate. rewrite <-columns_rename in Hdate.
  unfold BikeDataLoader.load_and_clean, BikeDataLoader.self_df, BikeDataLoader.set_df.
  unfold_monad. simpl.
  rewrite Hfile, bool_decide_eq_true_2 by done. simpl. rewrite Hfile. simpl.
  by rewrite (getitem_missing _ _ Hdate).
Qed.

Lemma load_and_clean_bad_date (self : BikeDataLoader.t) (w : World) (d : DataFrame)
    (dates : Series) :
  files w !! BikeDataLoader.hourly_path self = Some (Csv d) →
  getitem (rename BikeDataLoader.rename_map d) "date" = inr dates →
  ¬ Forall (λ x, is_Some (pd_to_datetime x)) dates →
  BikeDataLoader.load_and_clean (self, w) =
    (inl ValueError,
     ({| BikeDataLoader.hourly_path := BikeDataLoader.hourly_path self;
         BikeDataLoader.daily_path := BikeDataLoader.daily_path self;
         BikeDataLoader.df := Some (rename BikeDataLoader.rename_map d) |},
      {| files := files w;
         stdout := stdout w ++
           [Line ("Loading data from " +:+ BikeDataLoader.hourly_path self
                  +:+ "...")] |})).
Proof.
  intros Hfile Hdates Hbad.
  unfold BikeDataLoader.load_and_clean, BikeDataLoader.self_df, BikeDataLoader.set_df.
  unfold_monad. simpl.
  rewrite Hfile, bool_decide_eq_true_2 by done. simpl. rewrite Hfile. simpl.
  by rewrite Hdates, (to_datetime_fails _ Hbad).
Qed.

Lemma process_data_no_temp (self : BikeDataPipeline.t) (w : World) (d : DataFrame) :
  files w !! BikeDataPipeline.hourly_path self = Some (Csv d) →
  "temp" ∉ columns d →
  BikeDataPipeline.process_data (self, w) =
    (inl (KeyError "temp"),
     ({| BikeDataPipeline.hourly_path := BikeDataPipeline.hourly_path self;
         BikeDataPipeline.daily_path := BikeDataPipeline.daily_path self;
         BikeDataPipeline.trips_path := BikeDataPipeline.trips_path self;
         BikeDataPipeline.conn := BikeDataPipeline.conn self;
         BikeDataPipeline.df := Some (rename BikeDataPipeline.column_map d) |},
      {| files := files w;
         stdout := stdout w ++
           [Line ("Loading data from " +:+ BikeDataPipeline.hourly_path self
                  +:+ "...")] |})).
Proof.
  intros Hfile Htemp.
  assert ("temp" ∉ columns (rename BikeDataPipeline.column_map d)) as Hmiss.
  { rewrite columns_rename.
    intros (l & Hl & Hin)%list_elem_of_fmap. apply Htemp.
    assert (l = "temp") as ->; [|done].
    Local Transparent BikeDataPipeline.column_map.
    unfold rename_label in Hl.
    destruct (BikeDataPipeline.column_map !! l) as [v|] eqn:Hv; simpl in Hl; [|done].
    subst v. apply column_map_entries in Hv.
    repeat (apply elem_of_cons in Hv as [Heq|Hv]; [by inversion Heq|]).
    by apply elem_of_nil in Hv. }
  Local Opaque BikeDataPipeline.column_map.
  unfold BikeDataPipeline.process_data, BikeDataPipeline.self_df,
    BikeDataPipeline.set_df.
  unfold_monad. simpl.
  rewrite Hfile, bool_decide_eq_true_2 by done. simpl. rewrite Hfile. simpl.
  by rewrite (getitem_missing _ _ Hmiss).
Qed.

End loaders_io.

Lemma X1_loaders_read_hourly_file_only_witness :
  let w2 := {| files := <["data/day.csv" := Locked]> (files Sample.world_main);
               stdout := [] |} in
  (@BikeDataLoader.load_and_clean Sample.externals (Sample.loader, Sample.world_main)).1
  = (@BikeDataLoader.load_and_clean Sample.externals (Sample.loader, w2)).1.
Proof.
  intros w2.
  assert (stdout Sample.world_main = stdout w2) as Hout by reflexivity.
  assert (files Sample.world_main !! BikeDataLoader.hourly_path Sample.loader
          = files w2 !! BikeDataLoader.hourly_path Sample.loader) as Hfile
    by (vm_compute; reflexivity).
  exact (proj1 (proj1 (@X1_loaders_read_hourly_file_only Sample.externals
                         Sample.world_main w2 Hout) Sample.loader Hfile)).
Defined.

Lemma X2_existing_unreadable_hourly_path_witness :
  let w := {| files := {[ "hour.csv" := Dir ]}; stdout := [] |} in
  files w !! "hour.csv" = Some Dir ∧
  BikeDataPipeline.process_data (Sample.pipeline, w) =
    (inl IsADirectoryError,
     (Sample.pipeline,
      {| files := files w; stdout := [Line "Loading data from hour.csv..."] |})).
Proof.
  intros w.
  assert (files w !! "hour.csv" = Some Dir) as Hfile by (vm_compute; reflexivity).
  split; [exact Hfile|].
  exact (proj2 (@X2_existing_unreadable_hourly_path Sample.externals w "hour.csv" Dir
                  Hfile (or_introl eq_refl)) Sample.pipeline eq_refl).
Defined.

(** X3.  A loader that fails after the renaming leaves the object holding
    the table it had reached, renamed and nothing more.  With no column
    named [date] after the renaming [load_and_clean] raises
    [KeyError "date"]; with a [date] column that holds an unparsable cell
    it raises [ValueError]; with no [temp] column in the file
    [process_data] raises [KeyError "temp"], before anything is written
    to the database connection.  In each case the "Loading data from ..."
    line has been printed and the files are unchanged. *)
Theorem X3_load_fails_after_rename `{!Externals} (w : World) (p : string)
    (d : DataFrame) :
  files w !! p = Some (Csv d) →
  let after :=
    {| files := files w;
       stdout := stdout w ++ [Line ("Loading data from " +:+ p +:+ "...")] |} in
  (∀ self, BikeDataLoader.hourly_path self = p →
     "date" ∉ (rename_label BikeDataLoader.rename_map <$> columns d) →
     BikeDataLoader.load_and_clean (self, w) =
       (inl (KeyError "date"),
        ({| BikeDataLoader.hourly_path := p;
            BikeDataLoader.daily_path := BikeDataLoader.daily_path self;
            BikeDataLoader.df := Some (rename BikeDataLoader.rename_map d) |},
         after))) ∧
  (∀ self dates, BikeDataLoader.hourly_path self = p →
     getitem (rename BikeDataLoader.rename_map d) "date" = inr dates →
     ¬ Forall (λ x, is_Some (pd_to_datetime x)) dates →
     BikeDataLoader.load_and_clean (self, w) =
       (inl ValueError,
        ({| BikeDataLoader.hourly_path := p;
            BikeDataLoader.daily_path := BikeDataLoader.daily_path self;
            BikeDataLoader.df := Some (rename BikeDataLoader.rename_map d) |},
         after))) ∧
  (∀ self, BikeDataPipeline.hourly_path self = p →
     "temp" ∉ columns d →
     BikeDataPipeline.process_data (self, w) =
       (inl (KeyError "temp"),
        ({| BikeDataPipeline.hourly_path := p;
            BikeDataPipeline.daily_path := BikeDataPipeline.daily_path self;
            BikeDataPipeline.trips_path := BikeDataPipeline.trips_path self;
            BikeDataPipeline.conn := BikeDataPipeline.conn self;
            BikeDataPipeline.df := Some (rename BikeDataPipeline.column_map d) |},
         after))).
Proof.
  intros Hfile after. split_and!.
  - intros self <- Hdate. by apply load_and_clean_no_date.
  - intros self dates <- Hdates Hbad. by eapply load_and_clean_bad_date.
  - intros self <- Htemp. by apply process_data_no_temp.
Qed.

Lemma X3_load_fails_after_rename_witness :
  let d := [("hr", [Sample.num 0]); ("cnt", [Sample.num 16])] in
  let w := {| files := {[ "hour.csv" := Csv d ]}; stdout := [] |} in
  files w !! "hour.csv" = Some (Csv d) ∧
  ("temp" ∉ columns d) ∧
  (BikeDataPipeline.process_data (Sample.pipeline, w)).1 = inl (KeyError "temp") ∧
  BikeDataPipeline.df (BikeDataPipeline.process_data (Sample.pipeline, w)).2.1
    = Some [("hour", [Sample.num 0]); ("total_rentals", [Sample.num 16])].
Proof.
  intros d w.
  assert (files w !! "hour.csv" = Some (Csv d)) as Hfile by (vm_compute; reflexivity).
  assert ("temp" ∉ columns d) as Htemp by (simpl; not_in_labels).
  split; [exact Hfile|]. split; [exact Htemp|].
  rewrite (proj2 (proj2 (@X3_load_fails_after_rename Sample.externals w "hour.csv" d
                           Hfile)) Sample.pipeline eq_refl Htemp).
  split; [reflexivity|]. vm_compute. reflexivity.
Defined.

(** ** The two plotting methods of [BikeAnalyzer] *)

Lemma savefig_cases (path : string) (c : Chart) (w : World) :
  savefig path c w
    = (inr tt, {| files := <[path := Png c]> (files w); stdout := stdout w |})
  ∨ ∃ e, savefig path c w = (inl e, w).
Proof.
  unfold savefig. unfold_monad. simpl.
  repeat (case_match; simpl); eauto.
Qed.

Section analyzer_effects.
Context `{!Externals}.

Lemma plot_temporal_trends_cases (path : string) (a : BikeAnalyzer.t) (w : World) :
  (∃ rows,
     temporal_query (BikeAnalyzer.conn a) = inr rows ∧
     BikeAnalyzer.plot_temporal_trends path (a, w) =
       (inr tt,
        (a, {| files :=
                 <[path := Png {| chart_kind := LinePlot;
                                  chart_title :=
                                    "Hourly Bike Demand: Commuter vs Leisure Patterns";
                                  chart_data := temporal_frame "avg_rentals" rows |}]>
                   (files w);
               stdout := stdout w ++
                 [Line ("Saved temporal analysis to " +:+ path)] |})))
  ∨ ∃ e, BikeAnalyzer.plot_temporal_trends path (a, w) = (inl e, (a, w)).
Proof.
  unfold BikeAnalyzer.plot_temporal_trends.
  unfold on_snd, lift_result, gets, mbind, M_bind, print, write_stdout, modify. simpl.
  destruct (temporal_query (BikeAnalyzer.conn a)) as [e|rows]; [right; by exists e|].
  match goal with |- context [savefig ?p ?c ?w0] =>
    destruct (savefig_cases p c w0) as [->|[e ->]] end; simpl.
  - left. by exists rows.
  - right. by exists e.
Qed.

Lemma plot_user_segmentation_cases (path : string) (a : BikeAnalyzer.t) (w : World) :
  (∃ groups,
     BikeAnalyzer.weather_aggregate (BikeAnalyzer.df a) = inr groups ∧
     BikeAnalyzer.plot_user_segmentation path (a, w) =
       (inr tt,
        (a, {| files :=
                 <[path := Png {| chart_kind := StackedBarPlot;
                                  chart_title := "User Resilience to Weather Conditions";
                                  chart_data :=
                                    grouped_frame "weather_code"
                                      ["casual"; "registered"] groups |}]>
                   (files w);
               stdout := stdout w ++ [Line ("Saved user analysis to " +:+ path)] |})))
  ∨ ∃ e, BikeAnalyzer.plot_user_segmentation path (a, w) = (inl e, (a, w)).
Proof.
  unfold BikeAnalyzer.plot_user_segmentation.
  replace (call_wellformed BikeAnalyzer.plot_kwargs) with true by reflexivity.
  unfold on_snd, lift_result, gets, mbind, M_bind, print, write_stdout, modify. simpl.
  destruct (BikeAnalyzer.weather_aggregate (BikeAnalyzer.df a)) as [e|groups];
    [right; by exists e|].
  match goal with |- context [savefig ?p ?c ?w0] =>
    destruct (savefig_cases p c w0) as [->|[e ->]] end; simpl.
  - left. by exists groups.
  - right. by exists e.
Qed.

(** X4.  Given an output path that ends in a file name with the
    extension [.png] (a character other than a slash or a dot, then
    [.png]), a plotting method of [BikeAnalyzer] either does all of its
    work or none of it, and never changes the analyzer.  When it returns,
    the files are those before the call with the chart stored at the
    output path (the chart of the temporal query of the connection,
    respectively of the weather aggregate of the stored table) and the one
    line "Saved ... to <path>" has been printed; when it raises, no file
    has been written and nothing has been printed. *)
Theorem X4_plots_all_or_nothing (stem : string) (c : ascii)
    (a : BikeAnalyzer.t) (w : World) :
  c ≠ "/"%char → c ≠ "."%char →
  let path := stem +:+ String c ".png" in
  ((∃ rows,
      temporal_query (BikeAnalyzer.conn a) = inr rows ∧
      BikeAnalyzer.plot_temporal_trends path (a, w) =
        (inr tt,
         (a, {| files :=
                  <[path := Png {| chart_kind := LinePlot;
                                   chart_title :=
                                     "Hourly Bike Demand: Commuter vs Leisure Patterns";
                                   chart_data := temporal_frame "avg_rentals" rows |}]>
                    (files w);
                stdout := stdout w ++
                  [Line ("Saved temporal analysis to " +:+ path)] |})))
   ∨ ∃ e, BikeAnalyzer.plot_temporal_trends path (a, w) = (inl e, (a, w))) ∧
  ((∃ groups,
      BikeAnalyzer.weather_aggregate (BikeAnalyzer.df a) = inr groups ∧
      BikeAnalyzer.plot_user_segmentation path (a, w) =
        (inr tt,
         (a, {| files :=
                  <[path := Png {| chart_kind := StackedBarPlot;
                                   chart_title := "User Resilience to Weather Conditions";
                                   chart_data :=
                                     grouped_frame "weather_code"
                                       ["casual"; "registered"] groups |}]>
                    (files w);
                stdout := stdout w ++ [Line ("Saved user analysis to " +:+ path)] |})))
   ∨ ∃ e, BikeAnalyzer.plot_user_segmentation path (a, w) = (inl e, (a, w))).
Proof.
  intros _ _ path. split.
  - apply plot_temporal_trends_cases.
  - apply plot_user_segmentation_cases.
Qed.

End analyzer_effects.

Lemma X4_plots_all_or_nothing_witness :
  let a := {| BikeAnalyzer.df := Sample.weather_frame; BikeAnalyzer.conn := ∅ |} in
  (∃ groups,
     @BikeAnalyzer.plot_user_segmentation Sample.externals "user_analysis.png"
       (a, Sample.world_empty) =
       (inr tt,
        (a, {| files :=
                 {[ "user_analysis.png" :=
                      Png {| chart_kind := StackedBarPlot;
                             chart_title := "User Resilience to Weather Conditions";
                             chart_data :=
                               grouped_frame "weather_code"
                                 ["casual"; "registered"] groups |} ]};
               stdout := [Line "Saved user analysis to user_analysis.png"] |}))) ∧
  ∃ e, @BikeAnalyzer.plot_temporal_trends Sample.externals "user_analysis.png"
         (a, Sample.world_empty) = (inl e, (a, Sample.world_empty)).
Proof.
  intros a.
  destruct (@X4_plots_all_or_nothing Sample.externals "user_analysi" "s"%char
              a Sample.world_empty ltac:(discriminate) ltac:(discriminate))
    as [[(rows & Hq & _)|He] [(groups & _ & Hrun)|[e He']]].
  - vm_compute in Hq. discriminate.
  - vm_compute in Hq. discriminate.
  - split; [|exact He]. exists groups. exact Hrun.
  - vm_compute in He'. discriminate.
Defined.

(** ** [main]: what a run leaves behind *)

Section main_run.
Context `{!Externals}.

Lemma load_and_clean_post (self : BikeDataLoader.t) (w : World) (out : DataFrame)
    (s' : BikeDataLoader.t * World) :
  BikeDataLoader.load_and_clean (self, w) = (inr out, s') →
  s' = ({| BikeDataLoader.hourly_path := BikeDataLoader.hourly_path self;
           BikeDataLoader.daily_path := BikeDataLoader.daily_path self;
           BikeDataLoader.df := Some out |},
        {| files := files w;
           stdout := stdout w ++
             [Line ("Loading data from " +:+ BikeDataLoader.hourly_path self
                    +:+ "...")] |}).
Proof.
  intros Hrun.
  destruct (load_and_clean_inv _ _ _ _ Hrun)
    as (d & dates & dates' & temp & hum & wind & flags
        & Hfile & H1 & H1' & H2 & H3 & H4 & H5 & -> & _).
  rewrite (load_and_clean_run self w d dates dates' temp hum wind flags) in Hrun
    by done.
  congruence.
Qed.

Local Opaque BikeDataLoader.load_and_clean BikeAnalyzer.plot_temporal_trends
  BikeAnalyzer.plot_user_segmentation to_sql.

Lemma main_stages (w : World) :
  let w0 := {| files := <["output" := default Dir (files w !! "output")]> (files w);
               stdout := stdout w |} in
  let loader := BikeDataLoader.init "data/hour.csv" "data/day.csv" in
  (∃ e s, BikeDataLoader.load_and_clean (loader, w0) = (inl e, s) ∧
          main w = (inl e, s.2)) ∨
  (∃ out s, BikeDataLoader.load_and_clean (loader, w0) = (inr out, s) ∧
    ((∃ e, BikeAnalyzer.init out = inl e ∧ main w = (inl e, s.2)) ∨
     (∃ a, BikeAnalyzer.init out = inr a ∧
       let w1 := {| files := files s.2;
                    stdout := stdout s.2 ++ [Line "--- Starting Analysis ---"] |} in
       ((∃ e, BikeAnalyzer.plot_temporal_trends
                "output/temporal_analysis.png" (a, w1) = (inl e, (a, w1)) ∧
              main w = (inl e, w1)) ∨
        (∃ w2, BikeAnalyzer.plot_temporal_trends
                 "output/temporal_analysis.png" (a, w1) = (inr tt, (a, w2)) ∧
          ((∃ e, BikeAnalyzer.plot_user_segmentation
                   "output/user_analysis.png" (a, w2) = (inl e, (a, w2)) ∧
                 main w = (inl e, w2)) ∨
           (∃ w3, BikeAnalyzer.plot_user_segmentation
                    "output/user_analysis.png" (a, w2) = (inr tt, (a, w3)) ∧
                  main w =
                    (inr tt,
                     {| files := files w3;
                        stdout := stdout w3 ++
                          [Line "--- Analysis Complete. Check 'output' folder. ---"]
                     |})))))))).
Proof.
  intros w0 loader.
  assert (∀ (k : M World unit),
    ((found ← os_path_exists "output";
      (if negb found then os_makedirs "output" else mret tt);; k) w) = k w0) as Hdir.
  { intros k. unfold os_path_exists, os_makedirs, w0.
    unfold gets, get, modify, raise, mbind, M_bind, mret, M_ret. simpl.
    destruct (files w !! "output") as [f|] eqn:Hout.
    - rewrite bool_decide_eq_true_2 by done. simpl.
      rewrite insert_id by done. by destruct w.
    - rewrite bool_decide_eq_false_2 by (by intros [??]). simpl. by rewrite Hout. }
  unfold main. rewrite Hdir. fold loader.
  unfold with_obj, lift_result, print, write_stdout, modify, mbind, M_bind. simpl.
  destruct (BikeDataLoader.load_and_clean (loader, w0)) as [[e|out] s] eqn:Hload.
  { left. by exists e, s. }
  right. exists out, s. split; [done|].
  destruct (BikeAnalyzer.init out) as [e|a] eqn:Hinit; [left; by exists e|].
  right. exists a. split; [done|]. simpl.
  destruct (plot_temporal_trends_cases "output/temporal_analysis.png" a
              {| files := files s.2;
                 stdout := stdout s.2 ++ [Line "--- Starting Analysis ---"] |})
    as [(rows & _ & Ht)|[e Ht]]; rewrite Ht; simpl.
  2: { left. by exists e. }
  right. eexists. split; [done|].
  match goal with |- context [BikeAnalyzer.plot_user_segmentation ?p (a, ?w2)] =>
    destruct (plot_user_segmentation_cases p a w2) as [(groups & _ & Hu)|[e Hu]] end;
    rewrite Hu; simpl.
  2: { left. by exists e. }
  right. eexists. split; [done|]. done.
Qed.

Lemma load_and_clean_files (self : BikeDataLoader.t) (w : World) :
  files (BikeDataLoader.load_and_clean (self, w)).2.2 = files w.
Proof. by destruct (load_and_clean_local self w w eq_refl eq_refl) as (_ & _ & _ & ? & _). Qed.

Lemma analyzer_init_inv (d : DataFrame) (a : BikeAnalyzer.t) :
  BikeAnalyzer.init d = inr a →
  a = {| BikeAnalyzer.df := d; BikeAnalyzer.conn := {[ "rentals" := d ]} |}.
Proof.
  Local Transparent to_sql.
  unfold BikeAnalyzer.init, BikeAnalyzer.setup_db, to_sql.
  case_bool_decide; [|done]. intros [= <-]. by rewrite insert_empty.
  Local Opaque to_sql.
Qed.

Lemma main_files (w : World) :
  let fs0 := <["output" := default Dir (files w !! "output")]> (files w) in
  files (main w).2 = fs0 ∨
  (∃ c1, files (main w).2 = <["output/temporal_analysis.png" := Png c1]> fs0) ∨
  (∃ c1 c2, files (main w).2 =
     <["output/user_analysis.png" := Png c2]>
       (<["output/temporal_analysis.png" := Png c1]> fs0)).
Proof.
  intros fs0.
  destruct (main_stages w) as [(e & s & Hload & ->)|(out & s & Hload & Hrest)].
  { left. simpl.
    pose proof (load_and_clean_files (BikeDataLoader.init "data/hour.csv" "data/day.csv")
      {| files := fs0; stdout := stdout w |}) as Hfs.
    unfold fs0 in Hfs. rewrite Hload in Hfs. exact Hfs. }
  apply load_and_clean_post in Hload as ->. simpl in Hrest.
  destruct Hrest as [(e & _ & ->)|(a & _ & Hrest)]; [by left|].
  destruct Hrest as [(e & _ & ->)|(w2 & Ht & Hrest)]; [by left|].
  match type of Ht with BikeAnalyzer.plot_temporal_trends ?p (a, ?w1) = _ =>
    destruct (plot_temporal_trends_cases p a w1) as [(rows & _ & Ht')|[e Ht']] end;
    rewrite Ht' in Ht; [|done].
  injection Ht as <-.
  destruct Hrest as [(e & _ & ->)|(w3 & Hu & ->)]; [right; left; by eexists|].
  match type of Hu with BikeAnalyzer.plot_user_segmentation ?p (a, ?w2) = _ =>
    destruct (plot_user_segmentation_cases p a w2) as [(groups & _ & Hu')|[e Hu']] end;
    rewrite Hu' in Hu; [|done].
  injection Hu as <-. right; right. by eexists _, _.
Qed.

Lemma main_success (w w' : World) :
  main w = (inr tt, w') →
  ∃ d out rows groups,
    files w !! "data/hour.csv" = Some (Csv d) ∧
    (BikeDataLoader.load_and_clean
       (BikeDataLoader.init "data/hour.csv" "data/day.csv", w)).1 = inr out ∧
    temporal_query {[ "rentals" := out ]} = inr rows ∧
    BikeAnalyzer.weather_aggregate out = inr groups ∧
    files w' =
      <["output/user_analysis.png" :=
          Png {| chart_kind := StackedBarPlot;
                 chart_title := "User Resilience to Weather Conditions";
                 chart_data :=
                   grouped_frame "weather_code" ["casual"; "registered"] groups |}]>
        (<["output/temporal_analysis.png" :=
             Png {| chart_kind := LinePlot;
                    chart_title := "Hourly Bike Demand: Commuter vs Leisure Patterns";
                    chart_data := temporal_frame "avg_rentals" rows |}]>
           (<["output" := default Dir (files w !! "output")]> (files w))) ∧
    stdout w' = stdout w ++
      [Line "Loading data from data/hour.csv...";
       Line "--- Starting Analysis ---";
       Line "Saved temporal analysis to output/temporal_analysis.png";
       Line "Saved user analysis to output/user_analysis.png";
       Line "--- Analysis Complete. Check 'output' folder. ---"].
Proof.
  intros Hmain.
  destruct (main_stages w) as [(e & s & _ & Hm)|(out & s & Hload & Hrest)];
    [congruence|].
  pose proof Hload as Hpost. apply load_and_clean_post in Hpost. subst s.
  simpl in Hrest.
  destruct Hrest as [(e & _ & Hm)|(a & Hinit & Hrest)]; [congruence|].
  apply analyzer_init_inv in Hinit as ->.
  destruct Hrest as [(e & _ & Hm)|(w2 & Ht & Hrest)]; [congruence|].
  match type of Ht with BikeAnalyzer.plot_temporal_trends ?p (?a, ?w1) = _ =>
    destruct (plot_temporal_trends_cases p a w1) as [(rows & Hrows & Ht')|[e Ht']] end;
    rewrite Ht' in Ht; [|done].
  injection Ht as <-.
  destruct Hrest as [(e & _ & Hm)|(w3 & Hu & Hm)]; [congruence|].
  match type of Hu with BikeAnalyzer.plot_user_segmentation ?p (?a, ?w2) = _ =>
    destruct (plot_user_segmentation_cases p a w2) as [(groups & Hgroups & Hu')|[e Hu']] end;
    rewrite Hu' in Hu; [|done].
  injection Hu as <-. rewrite Hm in Hmain. injection Hmain as <-.
  pose proof (load_and_clean_local
    (BikeDataLoader.init "data/hour.csv" "data/day.csv") w
    {| files := <["output" := default Dir (files w !! "output")]> (files w);
       stdout := stdout w |}) as Hloc.
  simpl in Hloc. rewrite lookup_insert_ne in Hloc by done.
  destruct (Hloc eq_refl eq_refl) as (Hres & _). rewrite Hload in Hres.
  apply load_and_clean_inv in Hload as (d & _ & _ & _ & _ & _ & _ & Hfile & _).
  simpl in Hfile. rewrite lookup_insert_ne in Hfile by done.
  exists d, out, rows, groups. split_and!; try done.
  simpl. by rewrite <-!app_assoc.
Qed.

(** X5.  A run of [main] that ends normally has read a table from
    [data/hour.csv] and leaves exactly this behind: the files it found,
    with [output] a directory if there was no such entry, the chart of the
    temporal query of the cleaned table at
    [output/temporal_analysis.png] and the chart of its weather aggregate
    at [output/user_analysis.png]; and five printed lines, in this
    order.  The cleaned table is the one [load_and_clean] returns in the
    world [main] started in. *)
Theorem X5_main_success (w w' : World) :
  main w = (inr tt, w') →
  ∃ d out rows groups,
    files w !! "data/hour.csv" = Some (Csv d) ∧
    (BikeDataLoader.load_and_clean
       (BikeDataLoader.init "data/hour.csv" "data/day.csv", w)).1 = inr out ∧
    temporal_query {[ "rentals" := out ]} = inr rows ∧
    BikeAnalyzer.weather_aggregate out = inr groups ∧
    files w' =
      <["output/user_analysis.png" :=
          Png {| chart_kind := StackedBarPlot;
                 chart_title := "User Resilience to Weather Conditions";
                 chart_data :=
                   grouped_frame "weather_code" ["casual"; "registered"] groups |}]>
        (<["output/temporal_analysis.png" :=
             Png {| chart_kind := LinePlot;
                    chart_title := "Hourly Bike Demand: Commuter vs Leisure Patterns";
                    chart_data := temporal_frame "avg_rentals" rows |}]>
           (<["output" := default Dir (files w !! "output")]> (files w))) ∧
    stdout w' = stdout w ++
      [Line "Loading data from data/hour.csv...";
       Line "--- Starting Analysis ---";
       Line "Saved temporal analysis to output/temporal_analysis.png";
       Line "Saved user analysis to output/user_analysis.png";
       Line "--- Analysis Complete. Check 'output' folder. ---"].
Proof. apply main_success. Qed.

(** X6.  Whatever its outcome, [main] changes the file tree at three paths
    at most: [output], which afterwards is what it was before, or a
    directory if there was no such entry, and the two chart paths below
    it.  Every other path, the input file among them, holds afterwards
    what it held before. *)
Theorem X6_main_touches_three_paths (w : World) :
  let w' := (main w).2 in
  files w' !! "output" = Some (default Dir (files w !! "output")) ∧
  ∀ p, p ∉ ["output"; "output/temporal_analysis.png"; "output/user_analysis.png"] →
       files w' !! p = files w !! p.
Proof.
  intros w'. unfold w'.
  destruct (main_files w) as [->|[(c1 & ->)|(c1 & c2 & ->)]].
  - split; [by rewrite lookup_insert_eq|].
    intros p Hp. rewrite !not_elem_of_cons in Hp. destruct Hp as (? & ? & ? & _).
    by rewrite lookup_insert_ne.
  - split; [by rewrite lookup_insert_ne, lookup_insert_eq|].
    intros p Hp. rewrite !not_elem_of_cons in Hp. destruct Hp as (? & ? & ? & _).
    by rewrite !lookup_insert_ne.
  - split; [by rewrite !lookup_insert_ne, lookup_insert_eq by done|].
    intros p Hp. rewrite !not_elem_of_cons in Hp. destruct Hp as (? & ? & ? & _).
    by rewrite !lookup_insert_ne.
Qed.

Lemma sql_column_inv (t : DataFrame) (name : string) (c : Series) :
  sql_column t name = inr c → ∃ l, (l, c) ∈ t ∧ sql_ident l = sql_ident name.
Proof.
  unfold sql_column.
  destruct (filter (λ c, sql_ident c.1 = sql_ident name) t) as [|[l c0] rest] eqn:Hf;
    [done|].
  intros [= <-]. exists l.
  assert ((l, c0) ∈ filter (λ c : string * list value,
                              sql_ident c.1 = sql_ident name) t) as Hin
    by (rewrite Hf; apply list_elem_of_here).
  by apply list_elem_of_filter in Hin as [? ?].
Qed.

(** X12.  What a run of [main] needs from its input.  If [main] ends
    normally, the table in [data/hour.csv] has, after the renaming, a
    column for each of the eight labels that the loader and the weather
    aggregation index by name, and, compared as SQLite compares names
    (without regard to ASCII case), a column named [hour] and one named
    [total_rentals]. *)
Theorem X12_main_needs_columns (w w' : World) :
  main w = (inr tt, w') →
  ∃ d, files w !! "data/hour.csv" = Some (Csv d) ∧
    let labels := rename_label BikeDataLoader.rename_map <$> columns d in
    (∀ n, n ∈ ["date"; "temp"; "humidity_norm"; "windspeed"; "is_working_day";
               "weather_code"; "casual"; "registered"] → n ∈ labels) ∧
    (∀ n, n ∈ ["hour"; "total_rentals"] → n ∈ sql_ident <$> labels).
Proof.
  intros Hmain.
  destruct (main_success w w' Hmain)
    as (d & out & rows & groups & Hfile & Hload & Hquery & Hweather & _ & _).
  exists d. split; [done|]. intros labels.
  destruct (BikeDataLoader.load_and_clean
              (BikeDataLoader.init "data/hour.csv" "data/day.csv", w))
    as [r s] eqn:Hrun.
  simpl in Hload. subst r.
  destruct (load_and_clean_inv _ _ _ _ Hrun)
    as (d' & dates & dates' & temp & hum & wind & flags
        & Hfile' & H1 & H1' & H2 & H3 & H4 & H5 & Hout & _).
  simpl in Hfile'. rewrite Hfile in Hfile'. injection Hfile' as <-.
  set (base := setitem "date" dates' (rename BikeDataLoader.rename_map d)) in *.
  assert (∀ l, l ∈ columns base → l ∈ labels) as Hbase.
  { intros l. unfold base. rewrite columns_setitem, bool_decide_eq_true_2.
    - by rewrite columns_rename.
    - apply getitem_elem in H1 as [Hin _].
      apply list_elem_of_fmap. by exists ("date", dates). }
  assert (∀ l c, getitem out l = inr c →
            l ∉ ["temp_c"; "humidity_real"; "wind_speed_real"; "day_type"] →
            l ∈ labels) as Hcol.
  { intros l c [Hin _]%getitem_elem Hl. apply Hbase.
    assert (l ∈ columns out) as Hl'
      by (apply list_elem_of_fmap; by exists (l, c)).
    rewrite Hout in Hl'. by apply derived_labels in Hl' as [?|?]. }
  destruct (derived_sources base "is_working_day" temp hum wind flags
              BikeDataLoader.day_label H2 H3 H4 H5 (or_introl eq_refl))
    as (S1 & S2 & S3 & S4).
  rewrite <-Hout in S1, S2, S3, S4.
  unfold BikeAnalyzer.weather_aggregate in Hweather.
  apply groupby_mean_two in Hweather as (keys & s1 & s2 & G1 & G2 & G3 & _).
  split.
  - intros n Hn. rewrite !elem_of_cons in Hn.
    destruct Hn as [->|[->|[->|[->|[->|[->|[->|[->|Hn]]]]]]]];
      [| | | | | | | |by apply elem_of_nil in Hn].
    + apply Hbase. unfold base. apply list_elem_of_fmap.
      exists ("date", dates'). split; [done|]. apply setitem_elem. by left.
    + eapply Hcol; [exact S1|not_in_labels].
    + eapply Hcol; [exact S2|not_in_labels].
    + eapply Hcol; [exact S3|not_in_labels].
    + eapply Hcol; [exact S4|not_in_labels].
    + eapply Hcol; [exact G1|not_in_labels].
    + eapply Hcol; [exact G2|not_in_labels].
    + eapply Hcol; [exact G3|not_in_labels].
  - unfold temporal_query, sql_table in Hquery.
    rewrite lookup_singleton_eq in Hquery.
    destruct (sql_column out "hour") as [|h] eqn:Q1;
      [by repeat case_match|].
    destruct (sql_column out "day_type") as [|dt] eqn:Q2; [done|].
    destruct (sql_column out "total_rentals") as [|tr] eqn:Q3; [done|].
    assert (∀ n c, sql_column out n = inr c →
              sql_ident n ∉ ["temp_c"; "humidity_real"; "wind_speed_real"; "day_type"] →
              sql_ident n ∈ sql_ident <$> labels) as Hsql.
    { intros n c (l & Hin & Hl)%sql_column_inv Hn. rewrite <-Hl.
      apply list_elem_of_fmap. exists l. split; [done|]. apply Hbase.
      assert (l ∈ columns out) as Hl'
        by (apply list_elem_of_fmap; by exists (l, c)).
      rewrite Hout in Hl'. apply derived_labels in Hl' as [?|Hd]; [done|].
      destruct Hn. rewrite <-Hl. rewrite !elem_of_cons in Hd.
      destruct Hd as [->|[->|[->|[->|Hd]]]]; [in_labels..|by apply elem_of_nil in Hd]. }
    intros n Hn. rewrite !elem_of_cons in Hn.
    destruct Hn as [->|[->|Hn]]; [| |by apply elem_of_nil in Hn].
    + apply (Hsql "hour" h Q1). simpl. not_in_labels.
    + apply (Hsql "total_rentals" tr Q3). simpl. not_in_labels.
Qed.

End main_run.

Lemma X5_main_success_witness :
  ∃ w', @main Sample.externals Sample.world_main = (inr tt, w') ∧
        stdout w' =
          [Line "Loading data from data/hour.csv...";
           Line "--- Starting Analysis ---";
           Line "Saved temporal analysis to output/temporal_analysis.png";
           Line "Saved user analysis to output/user_analysis.png";
           Line "--- Analysis Complete. Check 'output' folder. ---"].
Proof.
  assert ((@main Sample.externals Sample.world_main).1 = inr tt) as Hres
    by (vm_compute; reflexivity).
  destruct (@main Sample.externals Sample.world_main) as [r w'] eqn:Hrun.
  simpl in Hres. subst r. exists w'. split; [reflexivity|].
  destruct (@X5_main_success Sample.externals Sample.world_main w' Hrun)
    as (d & out & rows & groups & _ & _ & _ & _ & _ & Hout).
  exact Hout.
Defined.

Lemma X6_main_touches_three_paths_witness :
  files (@main Sample.externals Sample.world_main).2 !! "data/hour.csv"
  = Some (Csv Sample.hour_csv).
Proof.
  assert ("data/hour.csv" ∉
          ["output"; "output/temporal_analysis.png"; "output/user_analysis.png"])
    as Hp by not_in_labels.
  rewrite (proj2 (@X6_main_touches_three_paths Sample.externals Sample.world_main)
             "data/hour.csv" Hp).
  reflexivity.
Defined.

(** ** [BikeDataPipeline]: running the steps one after another *)

Lemma pipeline_renames_keys :
  rename_label BikeDataPipeline.column_map "hr" = "hour" ∧
  rename_label BikeDataPipeline.column_map "cnt" = "total_rentals" ∧
  rename_label BikeDataPipeline.column_map "workingday" = "workingday".
Proof. by vm_compute. Qed.

Section pipeline_run.
Context `{!Externals}.
Import BikeDataPipeline.

Local Opaque getitem setitem rename series_mul column_map.

Lemma process_data_run (self : t) (w : World) (d : DataFrame)
    (temp hum wind flags : Series) :
  files w !! hourly_path self = Some (Csv d) →
  let base := rename column_map d in
  let with_temp := setitem "temp_c" (series_mul temp 41) base in
  let with_hum := setitem "humidity_real" (series_mul hum 100) with_temp in
  let with_wind := setitem "wind_speed_real" (series_mul wind 67) with_hum in
  let out := setitem "day_type" (day_label <$> flags) with_wind in
  getitem base "temp" = inr temp →
  getitem with_temp "humidity_norm" = inr hum →
  getitem with_hum "windspeed" = inr wind →
  getitem with_wind "workingday" = inr flags →
  NoDup (sql_ident <$> columns out) →
  process_data (self, w) =
    (inr tt,
     ({| hourly_path := hourly_path self; daily_path := daily_path self;
         trips_path := trips_path self;
         conn := <["rentals" := out]> (conn self); df := Some out |},
      {| files := files w;
         stdout := stdout w ++
           [Line ("Loading data from " +:+ hourly_path self +:+ "...");
            Line "Data successfully loaded into SQL environment."] |})).
Proof.
  intros Hfile base with_temp with_hum with_wind out H2 H3 H4 H5 Hnd.
  unfold process_data, self_df, set_df, set_conn, to_sql. unfold_monad.
  simpl. rewrite Hfile, bool_decide_eq_true_2 by done. simpl. rewrite Hfile. simpl.
  fold base. rewrite H2. fold with_temp. rewrite H3.
  fold with_hum. rewrite H4. fold with_wind. rewrite H5. fold out.
  rewrite bool_decide_eq_true_2 by done. simpl.
  by rewrite <-(assoc_L (++)).
Qed.

Lemma process_data_post (self : t) (w : World) (f : File) (s' : t * World) :
  files w !! hourly_path self = Some f →
  process_data (self, w) = (inr tt, s') →
  ∃ d out,
    f = Csv d ∧
    NoDup (sql_ident <$> columns out) ∧
    process_data (self, w) =
      (inr tt,
       ({| hourly_path := hourly_path self; daily_path := daily_path self;
           trips_path := trips_path self;
           conn := <["rentals" := out]> (conn self); df := Some out |},
        {| files := files w;
           stdout := stdout w ++
             [Line ("Loading data from " +:+ hourly_path self +:+ "...");
              Line "Data successfully loaded into SQL environment."] |})) ∧
    ∀ (self2 : t) (w2 : World),
      hourly_path self2 = hourly_path self →
      files w2 !! hourly_path self = Some (Csv d) →
      process_data (self2, w2) =
        (inr tt,
         ({| hourly_path := hourly_path self2; daily_path := daily_path self2;
             trips_path := trips_path self2;
             conn := <["rentals" := out]> (conn self2); df := Some out |},
          {| files := files w2;
             stdout := stdout w2 ++
               [Line ("Loading data from " +:+ hourly_path self +:+ "...");
                Line "Data successfully loaded into SQL environment."] |})).
Proof.
  intros Hfile Hrun.
  destruct (process_data_inv _ _ _ _ Hfile Hrun)
    as (d & temp & hum & wind & flags & out & -> & H2 & H3 & H4 & H5 & Hout & _ & Hsql & _).
  assert (NoDup (sql_ident <$> columns out)) as Hnd.
  { unfold to_sql in Hsql. by case_bool_decide. }
  exists d, out. split; [done|]. split; [done|]. subst out. split.
  - by apply (process_data_run self w d temp hum wind flags).
  - intros self2 w2 Hpath Hfile2. rewrite <-Hpath in Hfile2 |- *.
    by apply (process_data_run self2 w2 d temp hum wind flags).
Qed.

(** X7.  [process_data] can be run again: a second run right after one
    that returned also returns and leaves the pipeline exactly as the
    first run left it, with the same table in [self.df] and the same
    tables in the connection (the [rentals] table is replaced by an equal
    one, the other tables are kept), and no file is changed by either
    run. *)
Theorem X7_process_data_again (self : t) (w : World) (s1 : t * World) :
  process_data (self, w) = (inr tt, s1) →
  ∃ w2, process_data s1 = (inr tt, (s1.1, w2)) ∧
        files w2 = files w ∧ files s1.2 = files w.
Proof.
  intros Hrun.
  destruct (files w !! hourly_path self) as [f|] eqn:Hfile.
  - destruct (process_data_post _ _ _ _ Hfile Hrun) as (d & out & -> & Hnd & Hrun1 & Hany).
    rewrite Hrun1 in Hrun. injection Hrun as <-.
    eexists. split.
    { match goal with |- context [process_data (?s, ?w1)] =>
        rewrite (Hany s w1 eq_refl Hfile) end.
      simpl. by rewrite insert_insert_eq. }
    done.
  - rewrite process_data_missing in Hrun by done. injection Hrun as <-.
    eexists. split; [by apply process_data_missing|done].
Qed.

(** X8.  From the file to the chart of the thesis pipeline.  After a
    [process_data] that returned on a file with the columns [hr], [cnt]
    and [workingday], the temporal query on the connection is the
    aggregate of the file's own [hr] and [cnt] columns under the labels
    computed from its [workingday] column.  Every row of it carries one of
    the two day-type labels.  [run_temporal_analysis] run next never
    changes the pipeline, and when it returns it has stored the chart of
    these rows at [viz_temporal_patterns.png] and changed no other
    file. *)
Theorem X8_pipeline_temporal_from_file (self : t) (w : World) (s' : t * World)
    (d : DataFrame) (hr cnt wd : Series) :
  files w !! hourly_path self = Some (Csv d) →
  process_data (self, w) = (inr tt, s') →
  ("hr", hr) ∈ d → ("cnt", cnt) ∈ d → ("workingday", wd) ∈ d →
  let rows := temporal_aggregate hr (day_label <$> wd) cnt in
  let r := run_temporal_analysis s' in
  temporal_query (conn s'.1) = inr rows ∧
  (∀ row, row ∈ rows →
     tr_day_type row = VStr "Working Day" ∨ tr_day_type row = VStr "Weekend/Holiday") ∧
  r.2.1 = s'.1 ∧
  (r.1 = inr tt →
   files r.2.2 =
     <["viz_temporal_patterns.png" :=
         Png {| chart_kind := LinePlot;
                chart_title := "Hourly Usage Profiles: Commute vs. Leisure";
                chart_data := temporal_frame "average_volume" rows |}]> (files w)).
Proof.
  intros Hfile Hrun Hhr Hcnt Hwd rows r.
  destruct (process_data_inv _ _ _ _ Hfile Hrun)
    as (d' & temp & hum & wind & flags & out & Hd & H2 & H3 & H4 & H5 & Hout & Hdf
        & Hsql & Hfiles).
  injection Hd as <-.
  assert (NoDup (sql_ident <$> columns out) ∧
          conn s'.1 = <["rentals" := out]> (conn self)) as [Hnd Hconn].
  { unfold to_sql in Hsql. case_bool_decide; [|done]. by injection Hsql as <-. }
  destruct pipeline_renames_keys as (Khr & Kcnt & Kwd).
  assert (("hour", hr) ∈ out) as Ohr.
  { subst out. apply derived_keep; [not_in_labels|].
    rewrite <-Khr. by apply rename_elem. }
  assert (("total_rentals", cnt) ∈ out) as Ocnt.
  { subst out. apply derived_keep; [not_in_labels|].
    rewrite <-Kcnt. by apply rename_elem. }
  assert (flags = wd) as ->.
  { apply getitem_elem in H5 as [_ Huniq]. symmetry. apply Huniq.
    rewrite !setitem_elem. right. split; [done|]. right. split; [done|].
    right. split; [done|]. rewrite <-Kwd. by apply rename_elem. }
  assert (("day_type", day_label <$> wd) ∈ out) as Oday.
  { subst out. apply setitem_elem. by left. }
  assert (temporal_query (conn s'.1) = inr rows) as Hquery.
  { unfold temporal_query, sql_table. rewrite Hconn, lookup_insert_eq.
    by rewrite (sql_column_elem _ _ _ Hnd Ohr), (sql_column_elem _ _ _ Hnd Oday),
      (sql_column_elem _ _ _ Hnd Ocnt). }
  split; [done|]. split.
  { intros row Hrow.
    destruct (temporal_aggregate_spec hr (day_label <$> wd) cnt) as (_ & Hkeys & _).
    assert (tr_key row ∈ zip hr (day_label <$> wd)) as Hkey.
    { apply Hkeys. apply list_elem_of_fmap. by exists row. }
    apply elem_of_zip_r in Hkey. simpl in Hkey.
    apply list_elem_of_fmap in Hkey as (x & -> & _).
    unfold day_label. destruct (py_eq_one x); auto. }
  unfold r, run_temporal_analysis. destruct s' as [self' w']. simpl in *.
  unfold on_snd, lift_result, gets, mbind, M_bind, print, write_stdout, modify. simpl.
  rewrite Hquery.
  match goal with |- context [savefig ?p ?c ?w0] =>
    destruct (savefig_cases p c w0) as [->|[e ->]] end; simpl.
  - split; [done|]. intros _. by rewrite Hfiles.
  - done.
Qed.

Lemma run_temporal_analysis_frame (self : t) (w : World) :
  let r := run_temporal_analysis (self, w) in
  r.2.1 = self ∧
  ∀ p, p ≠ "viz_temporal_patterns.png" → files r.2.2 !! p = files w !! p.
Proof.
  unfold run_temporal_analysis.
  unfold on_snd, lift_result, gets, mbind, M_bind, print, write_stdout, modify. simpl.
  destruct (temporal_query (conn self)) as [e|rows]; [done|].
  match goal with |- context [savefig ?p ?c ?w0] =>
    destruct (savefig_cases p c w0) as [->|[e ->]] end; simpl; [|done].
  split; [done|]. intros p Hp. by rewrite lookup_insert_ne.
Qed.

Lemma run_spatial_analysis_frame (self : t) (w : World) :
  let r := run_spatial_analysis (self, w) in
  files r.2.2 = files w ∧
  hourly_path r.2.1 = hourly_path self ∧
  daily_path r.2.1 = daily_path self ∧
  trips_path r.2.1 = trips_path self ∧
  df r.2.1 = df self ∧
  ∀ name, name ≠ "raw_trips" → conn r.2.1 !! name = conn self !! name.
Proof.
  unfold run_spatial_analysis, set_conn, to_sql. unfold_monad. simpl.
  destruct (truthy (trips_path self)); simpl; [|done].
  case_bool_decide; simpl; [|done].
  destruct (files w !! default "" (trips_path self)) as [[| |trips|]|]; simpl; try done.
  case_bool_decide; simpl.
  - destruct (top_stations_query _) as [e|rows]; simpl;
      (split_and!; [done..|]); intros name Hname; by rewrite lookup_insert_ne.
  - split_and!; [done..|]. intros name Hname. by rewrite lookup_delete_ne.
Qed.

(** X9.  The analysis steps of the thesis pipeline leave its data alone,
    whatever their outcome.  [run_temporal_analysis] never changes the
    pipeline object and no file other than [viz_temporal_patterns.png].
    [run_spatial_analysis] never changes a file, the paths or [self.df],
    and in the connection no table other than [raw_trips]: the [rentals]
    table is what it was. *)
Theorem X9_analysis_steps_keep_data (self : t) (w : World) :
  let r1 := run_temporal_analysis (self, w) in
  let r2 := run_spatial_analysis (self, w) in
  (r1.2.1 = self ∧
   ∀ p, p ≠ "viz_temporal_patterns.png" → files r1.2.2 !! p = files w !! p) ∧
  (files r2.2.2 = files w ∧
   hourly_path r2.2.1 = hourly_path self ∧
   daily_path r2.2.1 = daily_path self ∧
   trips_path r2.2.1 = trips_path self ∧
   df r2.2.1 = df self ∧
   ∀ name, name ≠ "raw_trips" → conn r2.2.1 !! name = conn self !! name).
Proof.
  split.
  - apply run_temporal_analysis_frame.
  - apply run_spatial_analysis_frame.
Qed.

End pipeline_run.

Lemma X7_process_data_again_witness :
  ∃ s1 w2,
    BikeDataPipeline.process_data (Sample.pipeline, Sample.world_thesis) = (inr tt, s1) ∧
    BikeDataPipeline.process_data s1 = (inr tt, (s1.1, w2)).
Proof.
  assert ((BikeDataPipeline.process_data (Sample.pipeline, Sample.world_thesis)).1
          = inr tt) as Hres by (vm_compute; reflexivity).
  destruct (BikeDataPipeline.process_data (Sample.pipeline, Sample.world_thesis))
    as [r s1] eqn:Hrun.
  simpl in Hres. subst r.
  destruct (@X7_process_data_again Sample.pipeline Sample.world_thesis s1 Hrun)
    as (w2 & Hagain & _).
  by exists s1, w2.
Defined.

Lemma X8_pipeline_temporal_from_file_witness :
  ∃ s',
    BikeDataPipeline.process_data (Sample.pipeline, Sample.world_thesis) = (inr tt, s') ∧
    @temporal_query Sample.externals (BikeDataPipeline.conn s'.1) =
      inr (@temporal_aggregate Sample.externals
             [Sample.num 0; Sample.num 1; Sample.num 0; VNull]
             (BikeDataPipeline.day_label <$>
                [Sample.num 0; Sample.num 1; Sample.num 1; VNull])
             [Sample.num 15; Sample.num 10; Sample.num 35; Sample.num 300]).
Proof.
  assert ((BikeDataPipeline.process_data (Sample.pipeline, Sample.world_thesis)).1
          = inr tt) as Hres by (vm_compute; reflexivity).
  destruct (BikeDataPipeline.process_data (Sample.pipeline, Sample.world_thesis))
    as [r s'] eqn:Hrun.
  simpl in Hres. subst r. exists s'. split; [reflexivity|].
  assert (files Sample.world_thesis !! BikeDataPipeline.hourly_path Sample.pipeline
          = Some (Csv Sample.hour_csv)) as Hfile by (vm_compute; reflexivity).
  refine (proj1 (@X8_pipeline_temporal_from_file Sample.externals Sample.pipeline
                   Sample.world_thesis s' Sample.hour_csv _ _ _ Hfile Hrun _ _ _));
    unfold Sample.hour_csv; in_labels.
Defined.

Lemma X9_analysis_steps_keep_data_witness :
  files (BikeDataPipeline.run_spatial_analysis
           (Sample.pipeline, Sample.world_thesis)).2.2
    = files Sample.world_thesis ∧
  BikeDataPipeline.conn
    (BikeDataPipeline.run_spatial_analysis
       (Sample.pipeline, Sample.world_thesis)).2.1 !! "rentals" = None.
Proof.
  destruct (@X9_analysis_steps_keep_data Sample.externals Sample.pipeline
              Sample.world_thesis) as [_ (Hfiles & _ & _ & _ & _ & Hconn)].
  split; [exact Hfiles|].
  rewrite (Hconn "rentals") by done. reflexivity.
Defined.

(** ** Counting departures *)

Lemma filter_all {A} (P : A → Prop) `{∀ x, Decision (P x)} (l : list A) :
  Forall P l → filter P l = l.
Proof.
  induction 1 as [|x l Hx _ IH]; [done|].
  by rewrite filter_cons_True, IH.
Qed.

Lemma count_split {A} `{EqDecision A} (k : A) (ks l : list A) :
  k ∉ ks →
  length (filter (λ x, x ∈ k :: ks) l)
  = (length (filter (λ x, x = k) l) + length (filter (λ x, x ∈ ks) l))%nat.
Proof.
  intros Hk. induction l as [|x l IH]; [done|].
  rewrite !filter_cons.
  destruct (decide (x = k)) as [->|Hne].
  - rewrite decide_True by apply list_elem_of_here.
    rewrite (decide_False (P := k ∈ ks)) by done. simpl. by rewrite IH.
  - destruct (decide (x ∈ ks)) as [Hin|Hnin].
    + rewrite decide_True by (by apply list_elem_of_further).
      simpl. rewrite IH. lia.
    + rewrite decide_False; [done|].
      intros [?|?]%elem_of_cons; done.
Qed.

Lemma count_sum {A} `{EqDecision A} (ks l : list A) :
  NoDup ks →
  sum_list_with (λ k, length (filter (λ x, x = k) l)) ks
  = length (filter (λ x, x ∈ ks) l).
Proof.
  induction 1 as [|k ks Hk Hnd IH]; simpl.
  - symmetry. apply length_zero_iff_nil, elem_of_nil_inv.
    intros x [Hin _]%list_elem_of_filter. by apply elem_of_nil in Hin.
  - by rewrite IH, count_split.
Qed.

Lemma departures_sum (stations : Series) :
  sum_list_with snd (BikeDataPipeline.departures stations) = length stations.
Proof.
  unfold BikeDataPipeline.departures.
  transitivity (sum_list_with (λ k, length (filter (λ x, x = k) stations))
                  (remove_dups stations)).
  { generalize (remove_dups stations). intros ks.
    induction ks as [|k ks IH]; [done|]. rewrite fmap_cons. simpl. by rewrite IH. }
  rewrite count_sum by apply NoDup_remove_dups.
  f_equal. apply filter_all. apply Forall_forall.
  intros x Hx. by apply elem_of_remove_dups.
Qed.

(** X10.  The departures that [run_spatial_analysis] prints are true
    counts.  Every listed station has at least one departure; the listed
    counts add up to no more than the number of rows of the trip log, and
    to exactly that number when the log has five distinct stations or
    fewer; the list is empty only for an empty log.  A missing station
    cell forms a group like any other value. *)
Theorem X10_departures_add_up (stations : Series) :
  let top := BikeDataPipeline.top_start_stations stations in
  (∀ r, r ∈ top → (1 ≤ r.2)%nat) ∧
  (sum_list_with snd top ≤ length stations)%nat ∧
  ((length (remove_dups stations) ≤ 5)%nat →
     sum_list_with snd top = length stations) ∧
  (top = [] ↔ stations = []).
Proof.
  intros top.
  destruct (top_start_stations_spec stations) as (Hlen & _ & _ & Hin & _).
  fold top in Hlen, Hin.
  set (sorted := merge_sort BikeDataPipeline.by_departures_desc
                   (BikeDataPipeline.departures stations)).
  assert (sum_list_with snd sorted = length stations) as Hsum.
  { unfold sorted. rewrite merge_sort_Permutation. apply departures_sum. }
  assert (top = take 5 sorted) as Htop by done.
  split_and!.
  - intros [k n] Hr. destruct (Hin k n Hr) as [Hk ->]. simpl.
    assert (k ∈ filter (λ x, x = k) stations) as Hk'
      by (by apply list_elem_of_filter).
    destruct (filter (λ x, x = k) stations); [by apply elem_of_nil in Hk'|simpl; lia].
  - pose proof (sum_list_with_app snd (take 5 sorted) (drop 5 sorted)) as Happ.
    rewrite take_drop in Happ. rewrite Htop. lia.
  - intros Hfew. rewrite Htop, take_ge; [done|].
    unfold sorted. rewrite merge_sort_Permutation. unfold BikeDataPipeline.departures.
    by rewrite length_fmap.
  - split.
    + intros Hnil. rewrite Hnil in Hlen. simpl in Hlen.
      destruct stations as [|x l]; [done|].
      assert (x ∈ remove_dups (x :: l)) as Hx
        by (apply elem_of_remove_dups, list_elem_of_here).
      destruct (remove_dups (x :: l)); [by apply elem_of_nil in Hx|simpl in Hlen; lia].
    + intros ->. done.
Qed.

Lemma X10_departures_add_up_witness :
  sum_list_with snd (BikeDataPipeline.top_start_stations
                       [VStr "A"; VStr "B"; VStr "A"; VStr "C"; VStr "B"; VStr "A"])
  = 6%nat.
Proof.
  apply (proj1 (proj2 (proj2 (X10_departures_add_up
           [VStr "A"; VStr "B"; VStr "A"; VStr "C"; VStr "B"; VStr "A"])))).
  vm_compute. lia.
Defined.

(** ** The order of the rows of the input *)

Global Instance order_by_snd_fst_antisym : AntiSymm (=) order_by_snd_fst.
Proof.
  intros [a1 b1] [a2 b2]; unfold order_by_snd_fst; simpl.
  intros [H12 K12] [H21 K21].
  assert (b1 = b2) as -> by (by apply (anti_symm value_le)).
  f_equal. apply (anti_symm value_le); auto.
Qed.

Lemma select_Permutation {K} `{EqDecision K} (k : K) (kv kv' : list (K * value)) :
  kv ≡ₚ kv' → select k kv.*1 kv.*2 ≡ₚ select k kv'.*1 kv'.*2.
Proof.
  intros Hperm. unfold select. rewrite !zip_fst_snd. by rewrite Hperm.
Qed.

Section row_order.
Context `{!Externals}.

Lemma temporal_keys_unique (hour day_type total hour' day_type' total' : Series) :
  zip hour day_type ≡ₚ zip hour' day_type' →
  tr_key <$> temporal_aggregate hour day_type total
  = tr_key <$> temporal_aggregate hour' day_type' total'.
Proof.
  intros Hperm.
  destruct (temporal_aggregate_spec hour day_type total) as (Hnd & Hin & _ & Hsorted).
  destruct (temporal_aggregate_spec hour' day_type' total')
    as (Hnd' & Hin' & _ & Hsorted').
  apply (StronglySorted_unique order_by_snd_fst).
  - eapply StronglySorted_fmap; [|exact Hsorted]. done.
  - eapply StronglySorted_fmap; [|exact Hsorted']. done.
  - apply NoDup_Permutation; [done..|].
    intros k. by rewrite Hin, Hin', Hperm.
Qed.

(** X11.  The order of the rows of the input does not matter to what is
    grouped.  For two tables with the same rows in a different order the
    temporal query returns the same (hour, day_type) pairs in the same
    order, and the average of a pair is taken over the same cells, up to
    their order; likewise [groupby] yields the same group keys in the same
    order and gives each group the same cells. *)
Theorem X11_row_order_irrelevant :
  (∀ rows rows' : list (value * value * value),
     rows ≡ₚ rows' →
     let agg (rs : list (value * value * value)) :=
       temporal_aggregate rs.*1.*1 rs.*1.*2 rs.*2 in
     tr_key <$> agg rows = tr_key <$> agg rows' ∧
     (∀ r, r ∈ agg rows →
        tr_avg r = sql_avg (select (tr_key r) rows.*1 rows.*2)) ∧
     (∀ k, select k rows.*1 rows.*2 ≡ₚ select k rows'.*1 rows'.*2)) ∧
  (∀ rows rows' : list (value * value),
     rows ≡ₚ rows' →
     group_keys rows.*1 = group_keys rows'.*1 ∧
     (∀ k, select k rows.*1 rows.*2 ≡ₚ select k rows'.*1 rows'.*2)).
Proof.
  split.
  - intros rows rows' Hperm agg. split_and!.
    + unfold agg. apply temporal_keys_unique. rewrite !zip_fst_snd. by rewrite Hperm.
    + intros r Hr. unfold agg in Hr.
      destruct (temporal_aggregate_spec rows.*1.*1 rows.*1.*2 rows.*2)
        as (_ & _ & Hrow & _).
      rewrite (Hrow r Hr) at 1. simpl. by rewrite zip_fst_snd.
    + intros k. by apply select_Permutation.
  - intros rows rows' Hperm. split.
    + apply (StronglySorted_unique value_le);
        [apply group_keys_sorted..|].
      apply NoDup_Permutation; [apply group_keys_NoDup..|].
      intros k. by rewrite !group_keys_elem, Hperm.
    + intros k. by apply select_Permutation.
Qed.

End row_order.

Lemma X11_row_order_irrelevant_witness :
  let rows := [(Sample.num 8, VStr "Working Day", Sample.num 10);
               (Sample.num 0, VStr "Weekend/Holiday", Sample.num 4)] in
  let rows' := [(Sample.num 0, VStr "Weekend/Holiday", Sample.num 4);
                (Sample.num 8, VStr "Working Day", Sample.num 10)] in
  tr_key <$> @temporal_aggregate Sample.externals rows.*1.*1 rows.*1.*2 rows.*2
  = tr_key <$> @temporal_aggregate Sample.externals rows'.*1.*1 rows'.*1.*2 rows'.*2.
Proof.
  intros rows rows'.
  assert (rows ≡ₚ rows') as Hperm by apply perm_swap.
  exact (proj1 (proj1 (@X11_row_order_irrelevant Sample.externals) rows rows' Hperm)).
Defined.

Lemma X12_main_needs_columns_witness :
  ∃ w' d,
    @main Sample.externals Sample.world_main = (inr tt, w') ∧
    files Sample.world_main !! "data/hour.csv" = Some (Csv d) ∧
    "total_rentals" ∈ sql_ident <$> (rename_label BikeDataLoader.rename_map <$> columns d).
Proof.
  assert ((@main Sample.externals Sample.world_main).1 = inr tt) as Hres
    by (vm_compute; reflexivity).
  destruct (@main Sample.externals Sample.world_main) as [r w'] eqn:Hrun.
  simpl in Hres. subst r.
  destruct (@X12_main_needs_columns Sample.externals Sample.world_main w' Hrun)
    as (d & Hfile & _ & Hsql).
  exists w', d. split; [reflexivity|]. split; [exact Hfile|].
  apply Hsql. in_labels.
Defined.

(** ** The connection of the thesis pipeline *)

Section pipeline_connection.
Import BikeDataPipeline.

Local Opaque getitem setitem rename series_mul column_map.

(** X13.  [process_data] writes to the database last, and only to the
    table [rentals].  When it raises, every other table of the connection
    is what it was before the call; when what it raises is a [KeyError]
    (a column is missing) the whole connection is what it was; when it is
    the database that refuses the table, because two of its column names
    are equal without regard to case, [self.df] has been set to that table
    and the
    connection has lost the [rentals] table it may have had.  When it
    returns after finding the file, [self.df] is set and the [rentals]
    table of the connection is that same table, the other tables being
    kept.  The three paths of the pipeline are never changed. *)
Theorem X13_process_data_connection (self : t) (w : World) :
  let r := process_data (self, w) in
  (∀ e name, r.1 = inl e → name ≠ "rentals" →
     conn r.2.1 !! name = conn self !! name) ∧
  (∀ l, r.1 = inl (KeyError l) → conn r.2.1 = conn self) ∧
  (∀ msg, r.1 = inl (DatabaseError msg) →
     conn r.2.1 = delete "rentals" (conn self) ∧
     ∃ out, df r.2.1 = Some out ∧ ¬ NoDup (sql_ident <$> columns out)) ∧
  (r.1 = inr tt → is_Some (files w !! hourly_path self) →
     ∃ out, df r.2.1 = Some out ∧
            conn r.2.1 = <["rentals" := out]> (conn self)) ∧
  hourly_path r.2.1 = hourly_path self ∧
  daily_path r.2.1 = daily_path self ∧
  trips_path r.2.1 = trips_path self.
Proof.
  unfold process_data, self_df, set_df, set_conn, to_sql. unfold_monad. simpl.
  destruct (files w !! hourly_path self) as [f|] eqn:Hfile.
  - rewrite bool_decide_eq_true_2 by done. simpl. rewrite Hfile.
    destruct f as [| |d|]; simpl; try (split_and!; done).
    repeat (first [case_bool_decide|case_match]; simpl); split_and!; try done;
      try (intros msg [= ->];
           match goal with H : getitem _ _ = inl _ |- _ =>
             by apply getitem_error in H as [?|?] end).
    + intros _ _. by eexists.
    + intros e name _ Hname. by rewrite lookup_delete_ne.
    + intros msg _. split; [done|]. by eexists.
  - rewrite bool_decide_eq_false_2 by (by intros [??]). simpl.
    split_and!; done.
Qed.

End pipeline_connection.

Lemma X13_process_data_connection_witness :
  ∃ out,
    BikeDataPipeline.df
      (BikeDataPipeline.process_data (Sample.pipeline, Sample.world_thesis)).2.1
      = Some out ∧
    BikeDataPipeline.conn
      (BikeDataPipeline.process_data (Sample.pipeline, Sample.world_thesis)).2.1
      = {[ "rentals" := out ]}.
Proof.
  assert ((BikeDataPipeline.process_data (Sample.pipeline, Sample.world_thesis)).1
          = inr tt) as Hres by (vm_compute; reflexivity).
  assert (is_Some (files Sample.world_thesis
                     !! BikeDataPipeline.hourly_path Sample.pipeline)) as Hfile
    by (vm_compute; eexists; reflexivity).
  destruct (proj1 (proj2 (proj2 (proj2 (X13_process_data_connection Sample.pipeline
                            Sample.world_thesis)))) Hres Hfile) as (out & Hdf & Hconn).
  exists out. split; [exact Hdf|]. rewrite Hconn. apply insert_empty.
Defined.

